(** * bert4torch preference-alignment trainers: DPO and PPO

    A shallow embedding of [bert4torch/trainer/dpo_trainer.py] and
    [bert4torch/trainer/ppo_trainer_trl.py].

    Python code that mutates objects and may raise is written in a small
    state-and-exception monad in which the state survives a raised
    exception, because several properties below are about the state an
    exception leaves behind.  External collaborators (peft, torch, trl, the
    model forward pass, the generation component) are taken at their
    interface: either as fields of a class of collaborators or as setters on
    the flags the trainers read. *)

From Stdlib Require Import String List Bool Arith QArith Lia DecimalString.
Import ListNotations.
Close Scope Q_scope.
Open Scope string_scope.
Open Scope list_scope.

(* ===================================================================== *)
(** ** The Python runtime: exceptions, state, [with] statements          *)
(* ===================================================================== *)

Module Py.

Inductive exn : Type :=
| ValueError (msg : string)
| AttributeError (msg : string)
| TypeError (msg : string)
| KeyError (key : string)
| IndexError (msg : string)
| RuntimeError (msg : string).

Inductive outcome (A : Type) : Type :=
| Ret (a : A)
| Raise (e : exn).
Arguments Ret {A} a.
Arguments Raise {A} e.

Definition raised {A} (o : outcome A) : bool :=
  match o with Ret _ => false | Raise _ => true end.

(** Exception-only code (no state of interest). *)
Definition obind {A B} (o : outcome A) (k : A -> outcome B) : outcome B :=
  match o with Ret a => k a | Raise e => Raise e end.

(** Stateful code: the world after the computation is always produced,
    also when the computation raises. *)
Definition run (W A : Type) : Type := W -> outcome A * W.

Definition ret {W A} (a : A) : run W A := fun w => (Ret a, w).
Definition raise {W A} (e : exn) : run W A := fun w => (Raise e, w).
Definition bind {W A B} (c : run W A) (k : A -> run W B) : run W B :=
  fun w => match c w with
           | (Ret a, w1) => k a w1
           | (Raise e, w1) => (Raise e, w1)
           end.
Definition get {W} : run W W := fun w => (Ret w, w).
Definition modify {W} (f : W -> W) : run W unit := fun w => (Ret tt, f w).
Definition when {W} (b : bool) (c : run W unit) : run W unit :=
  if b then c else ret tt.

(** A context manager: [__enter__] hands back what [__exit__] needs. *)
Record ctxmgr (W S : Type) : Type := {
  enter : run W S;
  exit : S -> run W unit
}.
Arguments enter {W S} c.
Arguments exit {W S} c.

(** [with cm: body].  [__exit__] runs on every path out of the body; an
    exception of the body propagates after it (none of the managers used
    here suppresses exceptions), and an exception raised by [__exit__]
    itself replaces it. *)
Definition with_ {W S A} (cm : ctxmgr W S) (body : run W A) : run W A :=
  fun w => match enter cm w with
           | (Raise e, w1) => (Raise e, w1)
           | (Ret s, w1) =>
               match body w1 with
               | (r, w2) =>
                   match exit cm s w2 with
                   | (Ret _, w3) => (r, w3)
                   | (Raise e, w3) => (Raise e, w3)
                   end
               end
           end.

(** [contextlib.nullcontext()]. *)
Definition nullcontext {W} : ctxmgr W unit :=
  {| enter := ret tt; exit := fun _ => ret tt |}.

(** Truthiness of an [Optional[str]]: [None] and the empty string are
    false. *)
Definition truthy (o : option string) : bool :=
  match o with
  | Some (String _ _) => true
  | _ => false
  end.

(** [o or d] on an [Optional[str]]. *)
Definition or_else (o : option string) (d : string) : string :=
  match o with
  | Some (String c s) => String c s
  | _ => d
  end.

End Py.
Import Py.

Declare Scope py_scope.
Delimit Scope py_scope with py.
Notation "x <- c ;; k" := (bind c (fun x => k))
  (at level 61, c at next level, right associativity) : py_scope.
Notation "c ;; k" := (bind c (fun _ => k))
  (at level 61, right associativity) : py_scope.
Notation "'try!' x <- c ; k" := (obind c (fun x => k))
  (at level 61, x pattern, c at next level, right associativity) : py_scope.
Open Scope py_scope.

(* ===================================================================== *)
(** ** The tensor runtime, at the level the trainers observe it          *)
(* ===================================================================== *)

Module Torch.

Inductive dtype : Type := float16 | bfloat16 | float32 | float64.

(** A module parameter, with its [requires_grad] flag. *)
Record Param : Type := {
  pname : string;
  requires_grad : bool
}.

(** A tensor: its values, its element type, and the leaves of its autograd
    graph, i.e. the parameters a backward pass from it writes a gradient
    to.  A tensor produced while gradient tracking is off has no graph. *)
Record Tensor (P : Type) : Type := {
  data : P;
  dtype_of : dtype;
  grad_leaves : list string
}.
Arguments data {P} t.
Arguments dtype_of {P} t.
Arguments grad_leaves {P} t.

Definition trainable (ps : list Param) : list string :=
  map pname (filter requires_grad ps).

Definition freeze (p : Param) : Param :=
  {| pname := pname p; requires_grad := false |}.

(** [loss.backward()] for a loss built only on [t]: the parameters that
    receive a gradient. *)
Definition backward {P} (t : Tensor P) : list string := grad_leaves t.

End Torch.
Import Torch.

(* ===================================================================== *)
(** ** bert4torch/trainer/dpo_trainer.py                                  *)
(* ===================================================================== *)

Module dpo_trainer.

Definition kwargs : Type := list (string * string).

(** What the trainer reads and writes on a model object.  [internals]
    stands for the rest of the module (weights, hooks, dropout layers),
    which only the collaborators touch. *)
Record Model : Type := {
  internals : nat;
  parameters : list Param;
  training : bool;
  is_PeftModel : bool;
  adapters_enabled : bool;
  active_adapter : string;
  is_loaded_in_8bit : bool;
  is_loaded_in_4bit : bool;
  has_enable_input_require_grads : bool
}.

Definition set_parameters (ps : list Param) (m : Model) : Model :=
  {| internals := internals m; parameters := ps; training := training m;
     is_PeftModel := is_PeftModel m; adapters_enabled := adapters_enabled m;
     active_adapter := active_adapter m;
     is_loaded_in_8bit := is_loaded_in_8bit m;
     is_loaded_in_4bit := is_loaded_in_4bit m;
     has_enable_input_require_grads := has_enable_input_require_grads m |}.

Definition set_training (b : bool) (m : Model) : Model :=
  {| internals := internals m; parameters := parameters m; training := b;
     is_PeftModel := is_PeftModel m; adapters_enabled := adapters_enabled m;
     active_adapter := active_adapter m;
     is_loaded_in_8bit := is_loaded_in_8bit m;
     is_loaded_in_4bit := is_loaded_in_4bit m;
     has_enable_input_require_grads := has_enable_input_require_grads m |}.

Definition set_internals (i : nat) (m : Model) : Model :=
  {| internals := i; parameters := parameters m; training := training m;
     is_PeftModel := is_PeftModel m; adapters_enabled := adapters_enabled m;
     active_adapter := active_adapter m;
     is_loaded_in_8bit := is_loaded_in_8bit m;
     is_loaded_in_4bit := is_loaded_in_4bit m;
     has_enable_input_require_grads := has_enable_input_require_grads m |}.

(** A collaborator that works on a module in place. *)
Definition in_place (f : nat -> nat) (m : Model) : Model :=
  set_internals (f (internals m)) m.

Definition set_adapters_enabled (b : bool) (m : Model) : Model :=
  {| internals := internals m; parameters := parameters m; training := training m;
     is_PeftModel := is_PeftModel m; adapters_enabled := b;
     active_adapter := active_adapter m;
     is_loaded_in_8bit := is_loaded_in_8bit m;
     is_loaded_in_4bit := is_loaded_in_4bit m;
     has_enable_input_require_grads := has_enable_input_require_grads m |}.

Definition set_active_adapter (a : string) (m : Model) : Model :=
  {| internals := internals m; parameters := parameters m; training := training m;
     is_PeftModel := is_PeftModel m; adapters_enabled := adapters_enabled m;
     active_adapter := a;
     is_loaded_in_8bit := is_loaded_in_8bit m;
     is_loaded_in_4bit := is_loaded_in_4bit m;
     has_enable_input_require_grads := has_enable_input_require_grads m |}.

(** The [model] and [ref_model] arguments: a checkpoint identifier or an
    instantiated module. *)
Inductive model_arg : Type :=
| ModelId (checkpoint_path : string)
| ModelObj (m : Model).

Definition is_str (a : model_arg) : bool :=
  match a with ModelId _ => true | ModelObj _ => false end.

Definition is_str_opt (a : option model_arg) : bool :=
  match a with Some a => is_str a | None => false end.

(** [args], a [DottableDict]: an attribute that is absent reads as the
    default the source passes to [getattr]. *)
Record Args : Type := {
  gradient_checkpointing : bool;
  gradient_checkpointing_kwargs : option kwargs;
  bf16 : bool
}.

Definition getattr_gradient_checkpointing (args : option Args) : bool :=
  match args with Some a => gradient_checkpointing a | None => false end.

Definition getattr_bf16 (args : option Args) : bool :=
  match args with Some a => bf16 a | None => false end.

(** The collaborators of the DPO trainer: peft, the model builder, the
    forward call of the training loop and the dtype conversion.  Those
    that return a module are functions on [Model]; those that only mutate
    the module they are given are functions on its [internals]. *)
Class Collaborators (Inputs Payload : Type) : Type := {
  is_peft_available : bool;
  build_transformer_model : string -> kwargs -> outcome Model;
  merge_and_unload : Model -> Model;
  kbit_accepts_gc_kwargs : bool;
  prepare_model_for_kbit_training : Model -> bool -> option kwargs -> Model;
  enable_input_require_grads : nat -> nat;
  register_make_inputs_require_grad : nat -> nat;
  get_peft_model : Model -> kwargs -> Model;
  peft_module_casting_to_bf16 : nat -> nat;
  disable_dropout_in_model : nat -> nat;
  (** the model called on the bound arguments; it may raise *)
  call_model : Model -> Inputs -> outcome (Payload * dtype);
  (** value conversion of [Tensor.to] *)
  convert : dtype -> dtype -> Payload -> Payload
}.

(** The fields of [self]. *)
Record DPOTrainer : Type := {
  model : Model;
  ref_model : option Model;
  is_peft_model : bool;
  model_adapter_name : option string;
  ref_adapter_name : option string;
  _peft_has_been_casted_to_bf16 : bool
}.

Definition set_model (m : Model) (t : DPOTrainer) : DPOTrainer :=
  {| model := m; ref_model := ref_model t; is_peft_model := is_peft_model t;
     model_adapter_name := model_adapter_name t;
     ref_adapter_name := ref_adapter_name t;
     _peft_has_been_casted_to_bf16 := _peft_has_been_casted_to_bf16 t |}.

Section Trainer.

Context {Inputs Payload : Type} {ext : Collaborators Inputs Payload}.

(** Lines 91-100 and 112-121: make the embedding output require
    gradients. *)
Definition make_inputs_require_grad (m : Model) : Model :=
  if has_enable_input_require_grads m
  then in_place enable_input_require_grads m
  else in_place register_make_inputs_require_grad m.

(** Lines 66-107: the branch taken when peft is installed and a
    [peft_config] is given.  Returns the wrapped model and the value of
    [_peft_has_been_casted_to_bf16]. *)
Definition attach_adapter (model : Model) (ref_model : option Model)
    (args : option Args) (peft_config : kwargs)
    (force_use_ref_model : bool) : outcome (Model * bool) :=
  let model := if is_PeftModel model then merge_and_unload model else model in
  if match ref_model with Some _ => true | None => false end
     && negb force_use_ref_model
  then Raise (ValueError "You passed both a ref_model and a peft_config. For training PEFT adapters with DPO there is no need to pass a reference model.")
  else
    try! model <-
      (if is_loaded_in_8bit model || is_loaded_in_4bit model then
         match args with
         | None => Raise (AttributeError "gradient_checkpointing")
         | Some a =>
             let _support_gc_kwargs := kbit_accepts_gc_kwargs in
             Ret (prepare_model_for_kbit_training model
                    (gradient_checkpointing a)
                    (if _support_gc_kwargs
                     then gradient_checkpointing_kwargs a else None))
         end
       else if getattr_gradient_checkpointing args
       then Ret (make_inputs_require_grad model)
       else Ret model) ;
    let model := get_peft_model model peft_config in
    if getattr_bf16 args && is_loaded_in_4bit model
    then Ret (in_place peft_module_casting_to_bf16 model, true)
    else Ret (model, false).

(** [DPOTrainer.__init__], lines 20-141. *)
Definition __init__ (model : model_arg) (ref_model : option model_arg)
    (args : option Args)
    (model_init_kwargs ref_model_init_kwargs : option kwargs)
    (model_adapter_name ref_adapter_name : option string)
    (peft_config : option kwargs)
    (disable_dropout force_use_ref_model : bool) : outcome DPOTrainer :=
  try! model_init_kwargs <-
    match model_init_kwargs with
    | None => Ret []
    | Some kw =>
        if negb (is_str model)
        then Raise (ValueError "You passed model_kwargs to the DPOTrainer. But your model is already instantiated.")
        else Ret kw
    end ;
  try! ref_model_init_kwargs <-
    match ref_model_init_kwargs with
    | None => Ret []
    | Some kw =>
        if negb (is_str_opt ref_model)
        then Raise (ValueError "You passed ref_model_kwargs to the DPOTrainer. But your ref_model is already instantiated.")
        else Ret kw
    end ;
  try! model <-
    match model with
    | ModelId path => build_transformer_model path model_init_kwargs
    | ModelObj m => Ret m
    end ;
  try! ref_model <-
    match ref_model with
    | Some (ModelId path) =>
        try! m <- build_transformer_model path ref_model_init_kwargs ;
        Ret (Some m)
    | Some (ModelObj m) => Ret (Some m)
    | None => Ret None
    end ;
  try! (model, casted) <-
    match peft_config with
    | Some cfg =>
        if negb is_peft_available
        then Raise (ValueError "PEFT is not installed and you passed a `peft_config` in the trainer's kwargs, please install it to use the PEFT models")
        else attach_adapter model ref_model args cfg force_use_ref_model
    | None =>
        if getattr_gradient_checkpointing args
        then Ret (make_inputs_require_grad model, false)
        else Ret (model, false)
    end ;
  let is_peft := is_peft_available && is_PeftModel model in
  let self_ref_model :=
    match ref_model with
    | Some r => Some (set_training false
                        (set_parameters (map freeze (parameters r)) r))
    | None => None
    end in
  let model :=
    if disable_dropout then in_place disable_dropout_in_model model else model in
  let self_ref_model :=
    if disable_dropout
    then option_map (in_place disable_dropout_in_model) self_ref_model
    else self_ref_model in
  Ret {| model := model;
         ref_model := self_ref_model;
         is_peft_model := is_peft;
         model_adapter_name := model_adapter_name;
         ref_adapter_name := ref_adapter_name;
         _peft_has_been_casted_to_bf16 := casted |}.

(** *** The running trainer *)

(** One invocation of a model by [_argparse_forward]. *)
Record Call : Type := {
  callee : Model;
  call_inputs : Inputs;
  call_grad : bool
}.

(** What a forward pass can observe and change: the global gradient
    mode of torch, the trainer object (with the model object it owns),
    and the log of model invocations, oldest first. *)
Record World : Type := {
  grad_enabled : bool;
  self : DPOTrainer;
  trace : list Call
}.

Definition set_grad_enabled (b : bool) (w : World) : World :=
  {| grad_enabled := b; self := self w; trace := trace w |}.

Definition update_model (f : Model -> Model) (w : World) : World :=
  {| grad_enabled := grad_enabled w;
     self := set_model (f (model (self w))) (self w);
     trace := trace w |}.

Definition log_call (c : Call) (w : World) : World :=
  {| grad_enabled := grad_enabled w; self := self w;
     trace := trace w ++ [c] |}.

(** [torch.no_grad()]: gradient tracking off inside, the previous mode
    back on exit. *)
Definition no_grad : ctxmgr World bool :=
  {| enter := (w <- get ;; modify (set_grad_enabled false) ;;
               ret (grad_enabled w));
     exit := fun prev => modify (set_grad_enabled prev) |}.

(** peft's [PeftModel.disable_adapter()] on [self.unwrap_model()]: the
    adapter layers are disabled on entry and enabled again on exit;
    the selection of the active adapter is not touched. *)
Definition disable_adapter : ctxmgr World unit :=
  {| enter := modify (update_model (set_adapters_enabled false));
     exit := fun _ => modify (update_model (set_adapters_enabled true)) |}.

(** [self.model.set_adapter(name)]: an adapter-augmented model selects
    the named adapter; a plain module has no such method. *)
Definition set_adapter (name : string) : run World unit :=
  w <- get ;;
  if is_PeftModel (model (self w))
  then modify (update_model (set_active_adapter name))
  else raise (AttributeError "set_adapter").

(** [DPOTrainer.unwrap_model], lines 165-168. *)
Definition unwrap_model (self : DPOTrainer) : Model := model self.

(** [DPOTrainer.null_ref_context], lines 155-163, applied to the body of
    the [with] statement that uses it.  The function is a generator
    turned into a context manager: the body runs at the [yield]; an
    exception of the body is re-raised at the [yield], so the statements
    after it are skipped, while the inner [with] still runs its exit. *)
Definition null_ref_context {A} (body : run World A) : run World A :=
  w <- get ;;
  with_ (if is_peft_model (self w) && negb (truthy (ref_adapter_name (self w)))
         then disable_adapter else nullcontext)
    (w <- get ;;
     match ref_adapter_name (self w) with
     | Some (String c s) => set_adapter (String c s)
     | _ => ret tt
     end ;;
     r <- body ;;
     w <- get ;;
     when (truthy (ref_adapter_name (self w)))
          (set_adapter (or_else (model_adapter_name (self w)) "default")) ;;
     ret r).

(** [Tensor.to(dtype)]: a differentiable conversion. *)
Definition to (d : dtype) (t : Tensor Payload) : Tensor Payload :=
  {| data := convert (dtype_of t) d (data t);
     dtype_of := d;
     grad_leaves := grad_leaves t |}.

(** [self._argparse_forward(model, *inputs, **input_kwargs)] of the
    training loop: the model is called on the bound arguments.  The
    output carries an autograd graph only when gradient tracking is on,
    and then reaches the parameters that require gradients. *)
Definition _argparse_forward (m : Model) (x : Inputs)
    : run World (Tensor Payload) :=
  fun w =>
    let w' := log_call {| callee := m; call_inputs := x;
                          call_grad := grad_enabled w |} w in
    match call_model m x with
    | Ret (d, ty) =>
        (Ret {| data := d; dtype_of := ty;
                grad_leaves := if grad_enabled w
                               then trainable (parameters m) else [] |},
         w')
    | Raise e => (Raise e, w')
    end.

(** [DPOTrainer._forward], lines 143-153. *)
Definition _forward (x : Inputs)
    : run World (Tensor Payload * Tensor Payload) :=
  w <- get ;;
  t <- _argparse_forward (model (self w)) x ;;
  let policy_logits := to float32 t in
  reference_logits <-
    with_ no_grad
      (w <- get ;;
       match ref_model (self w) with
       | None =>
           null_ref_context
             (w <- get ;;
              t <- _argparse_forward (model (self w)) x ;;
              ret (to float32 t))
       | Some ref =>
           t <- _argparse_forward ref x ;;
           ret (to float32 t)
       end) ;;
  ret (policy_logits, reference_logits).

(** *** Vocabulary of the properties *)

(** The policy object the constructor stores when no adapter
    configuration is given. *)
Definition stored_policy (m : Model) (args : option Args)
    (disable_dropout : bool) : Model :=
  let m := if getattr_gradient_checkpointing args
           then make_inputs_require_grad m else m in
  if disable_dropout then in_place disable_dropout_in_model m else m.

(** A body that leaves the trainer object, and the model it owns, as it
    found them; the forward pass is one. *)
Definition preserves_self {A} (body : run World A) : Prop :=
  forall w, self (snd (body w)) = self w.

(** The output of calling module [m] on [x] while the gradient mode is
    [grad], converted to [float32]. *)
Definition forward_output (m : Model) (x : Inputs) (grad : bool)
    : outcome (Tensor Payload) :=
  match call_model m x with
  | Ret (d, ty) =>
      Ret (to float32
             {| data := d; dtype_of := ty;
                grad_leaves := if grad then trainable (parameters m)
                               else [] |})
  | Raise e => Raise e
  end.

Definition call_of (m : Model) (x : Inputs) (grad : bool) : Call :=
  {| callee := m; call_inputs := x; call_grad := grad |}.

(** The state of the policy model inside the null-reference scope. *)
Definition scoped_policy (t : DPOTrainer) : Model :=
  let m := model t in
  match ref_adapter_name t with
  | Some (String c s) => set_active_adapter (String c s) m
  | _ => if is_peft_model t then set_adapters_enabled false m else m
  end.

(** The module that produces the reference logits. *)
Definition reference_callee (t : DPOTrainer) : Model :=
  match ref_model t with
  | Some ref => ref
  | None => scoped_policy t
  end.

(** The trainer object once the reference pass has returned. *)
Definition after_reference_pass (t : DPOTrainer) : DPOTrainer :=
  match ref_model t with
  | Some _ => t
  | None =>
      match ref_adapter_name t with
      | Some (String _ _) =>
          set_model (set_active_adapter
                       (or_else (model_adapter_name t) "default")
                       (model t)) t
      | _ => if is_peft_model t
             then set_model (set_adapters_enabled true (model t)) t
             else t
      end
  end.

End Trainer.

End dpo_trainer.

(* ===================================================================== *)
(** ** bert4torch/trainer/ppo_trainer_trl.py                              *)
(* ===================================================================== *)

Module ppo_trainer_trl.

(** A Python float as the reward code produces it: a number (rounding is
    not modelled, arithmetic is exact) or the not-a-number that the mean
    of an empty tensor is. *)
Inductive pyfloat : Type :=
| Num (q : Q)
| NaN.

Definition fsub (a : pyfloat) (b : Q) : pyfloat :=
  match a with Num q => Num (q - b) | NaN => NaN end.

(** An element of [reward_score_outputs]: a floating-point tensor, given
    by its elements in row-major order, or some other Python value. *)
Inductive score : Type :=
| ScoreTensor (elems : list Q)
| NotATensor.

Definition numel (t : list Q) : nat := length t.

(** [Tensor.item()]: defined on tensors of exactly one element. *)
Definition item (t : list Q) : outcome Q :=
  match t with
  | [x] => Ret x
  | _ => Raise (RuntimeError "a Tensor with several elements cannot be converted to Scalar")
  end.

Definition total (t : list Q) : Q := fold_right Qplus 0%Q t.

(** [torch.mean(t).item()]. *)
Definition mean (t : list Q) : pyfloat :=
  match t with
  | [] => NaN
  | _ :: _ => Num (total t / inject_Z (Z.of_nat (numel t)))
  end.

(** The loop of [calculate_rewards], lines 75-84, with the list
    [rewards] it appends to. *)
Fixpoint calculate_rewards_loop (reward_score_outputs : list score)
    (reward_baseline : Q) (rewards : list pyfloat) : outcome (list pyfloat) :=
  match reward_score_outputs with
  | [] => Ret rewards
  | ScoreTensor t :: rest =>
      if Nat.eqb (numel t) 1 then
        try! v <- item t ;
        let reward_value := Num (v - reward_baseline) in
        calculate_rewards_loop rest reward_baseline (rewards ++ [reward_value])
      else
        let reward_value := fsub (mean t) reward_baseline in
        calculate_rewards_loop rest reward_baseline (rewards ++ [reward_value])
  | NotATensor :: _ =>
      Raise (TypeError "mean(): argument 'input' must be Tensor")
  end.

(** [PPOTrainerTrl.calculate_rewards], a static method; [reward_baseline]
    defaults to 0. *)
Definition calculate_rewards (reward_score_outputs : list score)
    (reward_baseline : option Q) : outcome (list pyfloat) :=
  let reward_baseline :=
    match reward_baseline with Some b => b | None => 0%Q end in
  calculate_rewards_loop reward_score_outputs reward_baseline [].

(** Reward shaping in the words of the specification: a tensor of exactly
    one element gives that element minus the baseline, any other tensor
    the mean of its elements minus the baseline. *)
Definition reward_shaping (baseline : Q) (t : list Q) : pyfloat :=
  match t with
  | [x] => Num (x - baseline)
  | _ => fsub (mean t) baseline
  end.

(** A reward with its number in lowest terms, to compare results. *)
Definition normalise (r : pyfloat) : pyfloat :=
  match r with Num q => Num (Qred q) | NaN => NaN end.

Definition Toks : Type := list Z.
Definition Stats : Type := list (string * Q).
Definition kwargs : Type := list (string * string).

Fixpoint lookup (k : string) (d : Stats) : option Q :=
  match d with
  | [] => None
  | (k', v) :: rest => if String.eqb k k' then Some v else lookup k rest
  end.

(** The batch [train_X]: a tuple or list whose first two items are the
    prompt tensors and the raw queries, a mapping with the keys
    [input_ids] and [query], or anything else. *)
Inductive batch : Type :=
| Sequence (question_tensors : list Toks) (query : list string)
| Mapping (input_ids : list Toks) (query : list string)
| Unsupported.

(** The collaborators of the PPO trainer.  [Core] is the state of the trl
    trainer this class extends (policy weights, optimizer, sampler). *)
Class Collaborators (Core RewardInputs : Type) : Type := {
  (** [generation.batch_generate], reading the decoder's [with_lm] *)
  batch_generate : bool -> list Toks -> kwargs -> Core ->
                   outcome (list Toks) * Core;
  tokenizer_decode : Toks -> string;
  reward_tokenizer : string -> string -> RewardInputs;
  (** the reward model's [.logits], one row per sample *)
  reward_model_logits : RewardInputs -> outcome (list (list Q));
  (** trl's [PPOTrainer.step] *)
  PPOTrainer_step : list Toks -> list Toks -> list pyfloat -> Core ->
                    outcome Stats * Core
}.

Section Trainer.

Context {Core RewardInputs : Type} {ext : Collaborators Core RewardInputs}.

(** The fields of [self] that the methods below use.  [ppo_step] and the
    staged batch do not exist before the first [train_step]. [updates]
    counts the invocations of trl's [PPOTrainer.step]; the code does not
    have it. *)
Record PPOTrainerTrl : Type := {
  with_lm : bool;
  generation_kwargs : kwargs;
  reward_baseline : Q;
  question_tensors : option (list Toks);
  response_tensors : option (list Toks);
  rewards : option (list pyfloat);
  ppo_step : option bool;
  core : Core;
  updates : nat
}.

Definition set_with_lm (b : bool) (s : PPOTrainerTrl) : PPOTrainerTrl :=
  {| with_lm := b; generation_kwargs := generation_kwargs s;
     reward_baseline := reward_baseline s;
     question_tensors := question_tensors s;
     response_tensors := response_tensors s; rewards := rewards s;
     ppo_step := ppo_step s; core := core s; updates := updates s |}.

Definition stage (q r : list Toks) (rw : list pyfloat)
    (s : PPOTrainerTrl) : PPOTrainerTrl :=
  {| with_lm := with_lm s; generation_kwargs := generation_kwargs s;
     reward_baseline := reward_baseline s;
     question_tensors := Some q; response_tensors := Some r;
     rewards := Some rw;
     ppo_step := ppo_step s; core := core s; updates := updates s |}.

Definition set_ppo_step (b : bool) (s : PPOTrainerTrl) : PPOTrainerTrl :=
  {| with_lm := with_lm s; generation_kwargs := generation_kwargs s;
     reward_baseline := reward_baseline s;
     question_tensors := question_tensors s;
     response_tensors := response_tensors s; rewards := rewards s;
     ppo_step := Some b; core := core s; updates := updates s |}.

Definition set_core (c : Core) (s : PPOTrainerTrl) : PPOTrainerTrl :=
  {| with_lm := with_lm s; generation_kwargs := generation_kwargs s;
     reward_baseline := reward_baseline s;
     question_tensors := question_tensors s;
     response_tensors := response_tensors s; rewards := rewards s;
     ppo_step := ppo_step s; core := c; updates := updates s |}.

Definition count_update (s : PPOTrainerTrl) : PPOTrainerTrl :=
  {| with_lm := with_lm s; generation_kwargs := generation_kwargs s;
     reward_baseline := reward_baseline s;
     question_tensors := question_tensors s;
     response_tensors := response_tensors s; rewards := rewards s;
     ppo_step := ppo_step s; core := core s; updates := S (updates s) |}.

(** A call into the state of the trl trainer. *)
Definition on_core {A} (f : Core -> outcome A * Core)
    : run PPOTrainerTrl A :=
  fun s => let (r, c) := f (core s) in (r, set_core c s).

Definition lift {A} (o : outcome A) : run PPOTrainerTrl A :=
  fun s => (o, s).

Definition getattr {A} (name : string) (field : option A)
    : run PPOTrainerTrl A :=
  match field with
  | Some v => ret v
  | None => raise (AttributeError name)
  end.

(** [PPOTrainerTrl.get_reward_model_output], lines 86-93. *)
Definition get_reward_model_output (question answer : string)
    : outcome score :=
  let inputs := reward_tokenizer question answer in
  try! logits <- reward_model_logits inputs ;
  match logits with
  | row :: _ => Ret (ScoreTensor row)
  | [] => Raise (IndexError "index 0 is out of bounds for dimension 0 with size 0")
  end.

(** The list comprehension of lines 49-50. *)
Fixpoint score_all (pairs : list (string * string))
    : outcome (list score) :=
  match pairs with
  | [] => Ret []
  | (q, r) :: rest =>
      try! s <- get_reward_model_output q r ;
      try! ss <- score_all rest ;
      Ret (s :: ss)
  end.

(** [PPOTrainerTrl.step], lines 61-64.  Falling off the end of the
    method returns [None]. *)
Definition step : run PPOTrainerTrl (option Stats) :=
  s <- get ;;
  flag <- getattr "ppo_step" (ppo_step s) ;;
  if (flag : bool) then
    modify (set_ppo_step false) ;;
    s <- get ;;
    q <- getattr "question_tensors" (question_tensors s) ;;
    r <- getattr "response_tensors" (response_tensors s) ;;
    rw <- getattr "rewards" (rewards s) ;;
    modify count_update ;;
    stats <- on_core (PPOTrainer_step q r rw) ;;
    ret (Some stats)
  else ret None.

(** [PPOTrainerTrl.train_step], lines 30-59; it returns the loss and
    the statistics. *)
Definition train_step (train_X : batch) : run PPOTrainerTrl (Q * Stats) :=
  qs <- match train_X with
        | Sequence q query => ret (q, query)
        | Mapping q query => ret (q, query)
        | Unsupported => raise (ValueError "Args `train_X` format illegel")
        end ;;
  let (question_tensors, query) := (qs : list Toks * list string) in
  modify (set_with_lm true) ;;
  s <- get ;;
  response_tensors <-
    on_core (batch_generate (with_lm s) question_tensors
                            (generation_kwargs s)) ;;
  modify (set_with_lm false) ;;
  let responses := map tokenizer_decode response_tensors in
  score_outputs <- lift (score_all (combine query responses)) ;;
  s <- get ;;
  rewards <- lift (calculate_rewards score_outputs
                     (Some (reward_baseline s))) ;;
  modify (stage question_tensors response_tensors rewards) ;;
  modify (set_ppo_step true) ;;
  stats <- step ;;
  match stats with
  | None => raise (TypeError "'NoneType' object is not subscriptable")
  | Some stats =>
      match lookup "ppo/loss/total" stats with
      | Some loss => ret (loss, stats)
      | None => raise (KeyError "ppo/loss/total")
      end
  end.

(** *** Vocabulary of the properties *)

(** The prompts and queries of a well-formed batch. *)
Definition fields (train_X : batch) : option (list Toks * list string) :=
  match train_X with
  | Sequence q query => Some (q, query)
  | Mapping q query => Some (q, query)
  | Unsupported => None
  end.

End Trainer.

End ppo_trainer_trl.

(** ** Observing the generation component

    The same collaborators, with a record kept beside the state of the trl
    trainer of the decoding mode that each [batch_generate] call was made
    with.  Nothing else changes: every collaborator does on the state what
    it did before. *)

Module ppo_spy.

Import ppo_trainer_trl.

Section Spy.

Context {Core RewardInputs : Type}.

Definition spy (ext : Collaborators Core RewardInputs)
    : Collaborators (Core * list bool) RewardInputs :=
  {| batch_generate :=
       fun lm question_tensors generation_kwargs (observed : Core * list bool) =>
         let (o, c) :=
           batch_generate lm question_tensors generation_kwargs
             (fst observed) in
         (o, (c, snd observed ++ [lm]));
     tokenizer_decode := tokenizer_decode;
     reward_tokenizer := reward_tokenizer;
     reward_model_logits := reward_model_logits;
     PPOTrainer_step :=
       fun q r rw (observed : Core * list bool) =>
         let (o, c) := PPOTrainer_step q r rw (fst observed) in
         (o, (c, snd observed)) |}.

(** The decoding modes that the generation calls so far were made with,
    oldest first. *)
Definition generation_modes (s : @PPOTrainerTrl (Core * list bool))
    : list bool :=
  snd (core s).

(** The trainer without the record. *)
Definition unobserved (s : @PPOTrainerTrl (Core * list bool))
    : @PPOTrainerTrl Core :=
  {| with_lm := with_lm s; generation_kwargs := generation_kwargs s;
     reward_baseline := reward_baseline s;
     question_tensors := question_tensors s;
     response_tensors := response_tensors s; rewards := rewards s;
     ppo_step := ppo_step s; core := fst (core s); updates := updates s |}.

End Spy.

End ppo_spy.

(** ** [calculate_rewards] on tensors of any element type

    [torch.mean] is defined on floating-point tensors only, so what the
    reward loop does with a tensor depends on its element type.  Here the
    elements of [reward_score_outputs] are told apart accordingly. *)

Module ppo_scores.

Import ppo_trainer_trl.

(** An element of [reward_score_outputs]: a floating-point tensor, a
    tensor of an integer or boolean type (a boolean counting as 0 or 1),
    each given by its elements in row-major order, or a value that is not
    a tensor. *)
Inductive any_score : Type :=
| FloatTensor (elems : list Q)
| IntegralTensor (elems : list Z)
| NotTensor.

(** [Tensor.item()] on a tensor of integers. *)
Definition item_int (t : list Z) : outcome Z :=
  match t with
  | [x] => Ret x
  | _ => Raise (RuntimeError "a Tensor with several elements cannot be converted to Scalar")
  end.

(** The loop of [calculate_rewards], lines 75-84.  The mean of a tensor
    that is not floating-point raises. *)
Fixpoint calculate_rewards_loop (reward_score_outputs : list any_score)
    (reward_baseline : Q) (rewards : list pyfloat) : outcome (list pyfloat) :=
  match reward_score_outputs with
  | [] => Ret rewards
  | FloatTensor t :: rest =>
      if Nat.eqb (numel t) 1 then
        try! v <- item t ;
        let reward_value := Num (v - reward_baseline) in
        calculate_rewards_loop rest reward_baseline (rewards ++ [reward_value])
      else
        let reward_value := fsub (mean t) reward_baseline in
        calculate_rewards_loop rest reward_baseline (rewards ++ [reward_value])
  | IntegralTensor t :: rest =>
      if Nat.eqb (length t) 1 then
        try! v <- item_int t ;
        let reward_value := Num (inject_Z v - reward_baseline) in
        calculate_rewards_loop rest reward_baseline (rewards ++ [reward_value])
      else
        Raise (RuntimeError "mean(): could not infer output dtype. Input dtype must be either a floating point or complex dtype.")
  | NotTensor :: _ =>
      Raise (TypeError "mean(): argument 'input' must be Tensor")
  end.

(** [PPOTrainerTrl.calculate_rewards], lines 67-84, on such inputs. *)
Definition calculate_rewards (reward_score_outputs : list any_score)
    (reward_baseline : option Q) : outcome (list pyfloat) :=
  let reward_baseline :=
    match reward_baseline with Some b => b | None => 0%Q end in
  calculate_rewards_loop reward_score_outputs reward_baseline [].

(** *** Vocabulary of the properties *)

(** The scores of [ppo_trainer_trl], which are floating-point tensors or
    no tensors, among these. *)
Definition widen (s : score) : any_score :=
  match s with
  | ScoreTensor t => FloatTensor t
  | NotATensor => NotTensor
  end.

(** The elements a reward can be computed from: a floating-point tensor,
    or a tensor of integers or booleans with exactly one element. *)
Definition has_reward (s : any_score) : bool :=
  match s with
  | FloatTensor _ => true
  | IntegralTensor t => Nat.eqb (length t) 1
  | NotTensor => false
  end.

End ppo_scores.

(* ===================================================================== *)
(** ** Concrete collaborators and objects, for running the code           *)
(* ===================================================================== *)

Module Sample.

Import dpo_trainer.

Definition plain : Model :=
  {| internals := 0;
     parameters := [ {| pname := "embeddings.weight"; requires_grad := true |};
                     {| pname := "lm_head.weight"; requires_grad := true |} ];
     training := true;
     is_PeftModel := false;
     adapters_enabled := true;
     active_adapter := "default";
     is_loaded_in_8bit := false;
     is_loaded_in_4bit := false;
     has_enable_input_require_grads := true |}.

(** An adapter-augmented policy whose active adapter is [custom]. *)
Definition lora : Model :=
  {| internals := 1;
     parameters := [ {| pname := "base.weight"; requires_grad := false |};
                     {| pname := "lora_A.weight"; requires_grad := true |} ];
     training := true;
     is_PeftModel := true;
     adapters_enabled := true;
     active_adapter := "custom";
     is_loaded_in_8bit := false;
     is_loaded_in_4bit := false;
     has_enable_input_require_grads := true |}.

(** The forward pass of these toy modules: a number that depends on the
    input, on the module and on its adapter state, in half precision. *)
Definition toy_logits (m : Model) (x : nat) : nat :=
  x + internals m
  + (if adapters_enabled m then String.length (active_adapter m) else 0).

Definition collaborators : Collaborators nat nat :=
  {| is_peft_available := true;
     build_transformer_model := fun _ _ => Ret plain;
     merge_and_unload := fun m => m;
     kbit_accepts_gc_kwargs := true;
     prepare_model_for_kbit_training := fun m _ _ => m;
     enable_input_require_grads := fun i => i;
     register_make_inputs_require_grad := fun i => i;
     get_peft_model := fun m _ => m;
     peft_module_casting_to_bf16 := fun i => i;
     disable_dropout_in_model := fun i => i;
     call_model := fun m x => Ret (toy_logits m x, bfloat16);
     convert := fun _ _ p => p |}.

(** A trainer in named-reference-adapter mode, with no policy adapter
    name configured, and a world that holds it. *)
Definition named_ref_trainer : DPOTrainer :=
  {| model := lora; ref_model := None; is_peft_model := true;
     model_adapter_name := None; ref_adapter_name := Some "ref";
     _peft_has_been_casted_to_bf16 := false |}.

(** The same in adapter-disable mode. *)
Definition disable_trainer : DPOTrainer :=
  {| model := lora; ref_model := None; is_peft_model := true;
     model_adapter_name := None; ref_adapter_name := None;
     _peft_has_been_casted_to_bf16 := false |}.

Definition world_of (t : DPOTrainer) : World (Inputs := nat) :=
  {| grad_enabled := true; self := t; trace := [] |}.

(** A forward pass that runs out of memory. *)
Definition out_of_memory : run (World (Inputs := nat)) unit :=
  raise (RuntimeError "CUDA out of memory").

(** The PPO side: the state of the trl trainer is the number of
    optimizer steps it has taken. *)
Definition ppo_collaborators
  : ppo_trainer_trl.Collaborators nat (string * string) :=
  {| ppo_trainer_trl.batch_generate :=
       fun _ qs _ c => (Ret (map (fun q => q ++ [7%Z]) qs), c);
     ppo_trainer_trl.tokenizer_decode := fun _ => "an answer";
     ppo_trainer_trl.reward_tokenizer := fun q a => (q, a);
     ppo_trainer_trl.reward_model_logits := fun _ => Ret [[(3 # 2)%Q]];
     ppo_trainer_trl.PPOTrainer_step :=
       fun _ _ _ c => (Ret [("ppo/loss/total", (1 # 4)%Q)], S c) |}.

(** The same with a generation component that runs out of memory. *)
Definition ppo_collaborators_failing_generation
  : ppo_trainer_trl.Collaborators nat (string * string) :=
  {| ppo_trainer_trl.batch_generate :=
       fun _ _ _ c => (Raise (RuntimeError "CUDA out of memory"), c);
     ppo_trainer_trl.tokenizer_decode := fun _ => "an answer";
     ppo_trainer_trl.reward_tokenizer := fun q a => (q, a);
     ppo_trainer_trl.reward_model_logits := fun _ => Ret [[(3 # 2)%Q]];
     ppo_trainer_trl.PPOTrainer_step :=
       fun _ _ _ c => (Ret [("ppo/loss/total", (1 # 4)%Q)], S c) |}.

(** A PPO trainer before its first step, its decoder in the given
    mode. *)
Definition ppo_trainer (lm : bool) : ppo_trainer_trl.PPOTrainerTrl :=
  {| ppo_trainer_trl.with_lm := lm;
     ppo_trainer_trl.generation_kwargs := [("topp", "1.0")];
     ppo_trainer_trl.reward_baseline := 0%Q;
     ppo_trainer_trl.question_tensors := None;
     ppo_trainer_trl.response_tensors := None;
     ppo_trainer_trl.rewards := None;
     ppo_trainer_trl.ppo_step := None;
     ppo_trainer_trl.core := 0%nat;
     ppo_trainer_trl.updates := 0%nat |}.

Definition ppo_batch : ppo_trainer_trl.batch :=
  ppo_trainer_trl.Mapping [[1%Z; 2%Z]; [3%Z]] ["first prompt"; "second prompt"].

(** A trainer whose batch is staged and whose flag is up. *)
Definition staged : ppo_trainer_trl.PPOTrainerTrl :=
  ppo_trainer_trl.set_ppo_step true
    (ppo_trainer_trl.stage [[1%Z; 2%Z]] [[1%Z; 2%Z; 7%Z]] [ppo_trainer_trl.Num (3 # 2)%Q]
       (ppo_trainer false)).

(** A trainer in named-reference-adapter mode whose policy adapter is
    [policy]. *)
Definition policy_ref_trainer : DPOTrainer :=
  {| model := set_active_adapter "policy" lora; ref_model := None;
     is_peft_model := true;
     model_adapter_name := Some "policy"; ref_adapter_name := Some "ref";
     _peft_has_been_casted_to_bf16 := false |}.

End Sample.

(* ===================================================================== *)
(** ** bert4torch/trainer/ppo_trainer_trl.py: the constructor             *)
(* ===================================================================== *)

Module ppo_constructor.

Import ppo_trainer_trl.

(** The generation component, as the trainer touches it: the decoding
    mode of its decoder and its tokenization hook. *)
Record Generation : Type := {
  decoder_with_lm : bool;
  process_choice : option string
}.

Section Constructor.

Context {Core RewardInputs : Type} {ext : Collaborators Core RewardInputs}.

(** What the constructor leaves: the fields the methods use, the
    generation component's tokenization hook, and
    [grad_accumulation_steps]. *)
Record Constructed : Type := {
  state : @PPOTrainerTrl Core;
  generation_process_choice : option string;
  grad_accumulation_steps : nat
}.

(** The arguments that are handed on to trl unread. *)
Variable TrlArgs : Type.

(** trl's [PPOTrainer.__init__(self, *args, **kwargs)].  It receives the
    [reward_baseline] entry of [kwargs] too, which is popped only after
    the call.  It yields the state of the trl trainer and
    [config.gradient_accumulation_steps]. *)
Variable PPOTrainer_init : TrlArgs -> option Q -> outcome (Core * nat).

(** [PPOTrainerTrl.__init__], lines 17-28.  [trl_installed] is false when
    the import at the top of the file failed and [PPOTrainer] is [object];
    [reward_baseline] is the entry of that name in [kwargs], if any.  An
    empty [generation_kwargs] is replaced by an empty dictionary. *)
Definition __init__ (trl_installed : bool) (args : TrlArgs)
    (generation : option Generation) (generation_kwargs : option kwargs)
    (reward_baseline : option Q) : outcome Constructed :=
  if negb trl_installed
  then Raise (ValueError "Please install trl by running `pip install trl`")
  else
    try! (trl_state, steps) <- PPOTrainer_init args reward_baseline ;
    match generation with
    | None =>
        Raise (AttributeError "'NoneType' object has no attribute 'process_choice'")
    | Some g =>
        Ret {| state :=
                 {| with_lm := decoder_with_lm g;
                    ppo_trainer_trl.generation_kwargs :=
                      match generation_kwargs with
                      | Some kw => kw
                      | None => []
                      end;
                    ppo_trainer_trl.reward_baseline :=
                      match reward_baseline with
                      | Some b => b
                      | None => 0%Q
                      end;
                    question_tensors := None;
                    response_tensors := None;
                    rewards := None;
                    ppo_step := None;
                    core := trl_state;
                    updates := 0 |};
               generation_process_choice := None;
               grad_accumulation_steps := steps |}
    end.

End Constructor.

End ppo_constructor.

(* ===================================================================== *)
(** ** examples/llm/instruct_gpt/step3_rlhf.py: the data of the PPO run   *)
(* ===================================================================== *)

Module step3_rlhf.

Definition newline : string := String (Ascii.ascii_of_nat 10) EmptyString.

(** A message of a conversation: its [value] and [from] entries. *)
Record message : Type := {
  value : string;
  from : string
}.

(** [PROMPT_TEMPLATE.format_map({"instruction": instruction})]. *)
Definition PROMPT_TEMPLATE (instruction : string) : string :=
  ("Below is an instruction that describes a task. "
   ++ "Write a response that appropriately completes the request."
   ++ newline ++ newline
   ++ "### Instruction:" ++ newline ++ instruction ++ newline ++ newline
   ++ "### Response: ")%string.

(** [pad_token_id = tokenizer.pad_token_id or -100], line 59. *)
Definition pad_token_id (tokenizer_pad_token_id : option Z) : Z :=
  match tokenizer_pad_token_id with
  | None => (-100)%Z
  | Some Z0 => (-100)%Z
  | Some z => z
  end.

Section Data.

(** [tokenizer(source, truncation=True, max_length=max_source_length)]
    and its [input_ids]. *)
Variable tokenizer : string -> list Z.

(** [sequence_padding(..., value=pad_token_id, mode='pre')] of
    bert4torch.snippets. *)
Variable sequence_padding : list (list Z) -> Z -> list (list Z).

Variable tokenizer_pad_token_id : option Z.

(** The inner loop of [preprocess_function], lines 74-81. *)
Fixpoint messages_loop (conversation : list message)
    (new_examples : list (string * list Z)) : list (string * list Z) :=
  match conversation with
  | [] => new_examples
  | message :: rest =>
      let instruction := value message in
      let input := from message in
      let instruction :=
        match input with
        | EmptyString => instruction
        | String _ _ => (instruction ++ newline ++ input)%string
        end in
      let source := PROMPT_TEMPLATE instruction in
      let tokenized_question := tokenizer source in
      messages_loop rest (new_examples ++ [(source, tokenized_question)])
  end.

(** The outer loop, line 73. *)
Fixpoint conversations_loop (examples : list (list message))
    (new_examples : list (string * list Z)) : list (string * list Z) :=
  match examples with
  | [] => new_examples
  | conversation :: rest =>
      conversations_loop rest (messages_loop conversation new_examples)
  end.

(** [preprocess_function], lines 71-82. *)
Definition preprocess_function (examples : list (list message))
    : list (string * list Z) :=
  conversations_loop examples [].

(** The loop of [collate_fn], lines 98-101. *)
Fixpoint collate_loop (batch : list (string * list Z))
    (batch_token_ids : list (list Z)) (batch_queries : list string)
    : list (list Z) * list string :=
  match batch with
  | [] => (batch_token_ids, batch_queries)
  | (query, token_ids) :: rest =>
      collate_loop rest (batch_token_ids ++ [token_ids])
        (batch_queries ++ [query])
  end.

(** [collate_fn], lines 97-104: the batch handed to [train_step]; the
    label it returns beside it is [None]. *)
Definition collate_fn (batch : list (string * list Z))
    : ppo_trainer_trl.batch :=
  let (batch_token_ids, batch_queries) := collate_loop batch [] [] in
  ppo_trainer_trl.Mapping
    (sequence_padding batch_token_ids (pad_token_id tokenizer_pad_token_id))
    batch_queries.

(** *** Vocabulary of the properties *)

(** The prompt made from one message. *)
Definition source_of (m : message) : string :=
  PROMPT_TEMPLATE
    (match from m with
     | EmptyString => value m
     | String _ _ => (value m ++ newline ++ from m)%string
     end).

End Data.

End step3_rlhf.

(* ===================================================================== *)
(** ** examples/llm/task_chatglm2_ptuning_v2.py: prompts, labels, loss    *)
(* ===================================================================== *)

Module task_chatglm2_ptuning_v2.

Definition newline : string := String (Ascii.ascii_of_nat 10) EmptyString.

Definition max_source_length : nat := 64.
Definition max_target_length : nat := 64.
Definition max_seq_length : nat := max_source_length + max_target_length.
Definition prefix : string := EmptyString.

(** [str(n)] for a natural number. *)
Definition str (n : nat) : string := NilEmpty.string_of_uint (Nat.to_uint n).

(** One earlier round of the prompt, line 89. *)
Definition past_round (i : nat) (old_query response : string) : string :=
  ("[Round " ++ str i ++ "]" ++ newline ++ newline
   ++ "问：" ++ old_query ++ newline ++ newline
   ++ "答：" ++ response ++ newline ++ newline)%string.

(** The round that is to be answered, line 90. *)
Definition open_round (i : nat) (query : string) : string :=
  ("[Round " ++ str i ++ "]" ++ newline ++ newline
   ++ "问：" ++ query ++ newline ++ newline ++ "答：")%string.

(** The loop of [build_prompt], lines 88-89; [i] is the index that
    [enumerate] has reached. *)
Fixpoint history_loop (i : nat) (history : list (string * string))
    (prompt : string) : string :=
  match history with
  | [] => prompt
  | (old_query, response) :: rest =>
      history_loop (S i) rest
        (prompt ++ past_round (i + 1) old_query response)%string
  end.

(** [build_prompt], lines 84-91. *)
Definition build_prompt (query : string)
    (history : option (list (string * string))) : string :=
  let history := match history with Some h => h | None => [] end in
  let prompt := EmptyString in
  let prompt := history_loop 0 history prompt in
  (prompt ++ open_round (length history + 1) query)%string.

Section Collate.

(** [tokenizer.encode(text, add_special_tokens, truncation=True,
    max_length)]. *)
Variable encode : string -> bool -> nat -> list Z.
Variables eos_token_id pad_token_id : Z.

(** The loop of [collate_train_fn], lines 95-105. *)
Fixpoint collate_train_loop
    (batch : list (string * string * option (list (string * string))))
    (batch_token_ids batch_labels : list (list Z))
    : list (list Z) * list (list Z) :=
  match batch with
  | [] => (batch_token_ids, batch_labels)
  | (query, answer, history) :: rest =>
      let prompt := build_prompt query history in
      let prompt := (prefix ++ prompt)%string in
      let a_ids := encode prompt true max_source_length in
      let b_ids := encode answer false max_target_length in
      let context_length := length a_ids in
      let input_ids := a_ids ++ b_ids ++ [eos_token_id] in
      let labels :=
        repeat pad_token_id context_length ++ b_ids ++ [eos_token_id] in
      collate_train_loop rest (batch_token_ids ++ [input_ids])
        (batch_labels ++ [labels])
  end.

(** The token ids and labels of [collate_train_fn] before they are padded
    into tensors. *)
Definition collate_train_samples
    (batch : list (string * string * option (list (string * string))))
    : list (list Z) * list (list Z) :=
  collate_train_loop batch [] [].

End Collate.

Section Loss.

(** The logits of one position, and the result of the loss. *)
Variables Logit Loss : Type.

(** [nn.CrossEntropyLoss.forward] on the flattened logits and labels. *)
Variable cross_entropy : list Logit -> list Z -> Loss.

(** [CrossEntropyLoss.forward], lines 137-151, on a batch of sequences
    of logits and a batch of label sequences: the last position of every
    row of logits and the first label of every row are dropped, the rows
    are laid end to end, and the parent loss is applied.  The conversions
    to [float32] and back are not modelled. *)
Definition shift_logits (logits : list (list Logit)) : list Logit :=
  concat (map (@removelast Logit) logits).

Definition shift_labels (labels : list (list Z)) : list Z :=
  concat (map (@tl Z) labels).

Definition forward (logits : list (list Logit)) (labels : list (list Z))
    : Loss :=
  let logits := shift_logits logits in
  let labels := shift_labels labels in
  cross_entropy logits labels.

End Loss.

End task_chatglm2_ptuning_v2.

(* ===================================================================== *)
(** ** docs/compare.py: comparing configuration files                     *)
(* ===================================================================== *)

Module compare.

Section Configs.

(** The values of a configuration, with Python's [==] on them. *)
Variable Value : Type.
Variable value_eqb : Value -> Value -> bool.

(** A loaded configuration: a dictionary, as the list of its items in
    insertion order. *)
Definition config : Type := list (string * Value).

Fixpoint get (k : string) (d : config) : option Value :=
  match d with
  | [] => None
  | (k', v) :: rest => if String.eqb k k' then Some v else get k rest
  end.

(** [d.pop(k)], for its effect on [d]. *)
Definition pop (k : string) (d : config) : config :=
  filter (fun kv => negb (String.eqb k (fst kv))) d.

(** What is printed for one pair of files. *)
Inductive report : Type :=
| Silent
| Differs (local_k : string) (local_v : Value)
| Leftover (convert_config : config).

(** Lines 25-37, on the items of [local_config] that are still to be
    visited. *)
Fixpoint compare_items (local_items : list (string * Value))
    (convert_config : config) : report :=
  match local_items with
  | [] =>
      match convert_config with
      | [] => Silent
      | _ :: _ => Leftover convert_config
      end
  | (local_k, local_v) :: rest =>
      match get local_k convert_config with
      | None => Differs local_k local_v
      | Some v =>
          if negb (value_eqb local_v v)
          then Differs local_k local_v
          else compare_items rest (pop local_k convert_config)
      end
  end.

(** A line of output. *)
Inductive line : Type :=
| Warning (convert_path : string)
| Difference (local_path convert_path : string) (k : string) (v : Value)
| Remainder (local_path convert_path : string) (rest : config).

Inductive failure : Type :=
| FileNotFoundError (path : string).

(** The file system: the configuration in each file that exists. *)
Variable read : string -> option config.

(** [os.path.join] and [str.replace(local_dir, convert_dir)]. *)
Variable join : string -> string -> string.
Variable replace : string -> string -> string -> string.

(** The loop over the files of one directory, lines 11-37.  A difference
    leaves the loop. *)
Fixpoint files_loop (local_dir convert_dir dir : string)
    (files : list string) (out : list line) : list line * option failure :=
  match files with
  | [] => (out, None)
  | file :: rest =>
      if negb (String.eqb file "bert4torch_config.json")
      then files_loop local_dir convert_dir dir rest out
      else
        let local_path := join dir file in
        let convert_path := replace local_path local_dir convert_dir in
        let out :=
          match read convert_path with
          | None => out ++ [Warning convert_path]
          | Some _ => out
          end in
        match read local_path with
        | None => (out, Some (FileNotFoundError local_path))
        | Some local_config =>
            match read convert_path with
            | None => (out, Some (FileNotFoundError convert_path))
            | Some convert_config =>
                match compare_items local_config convert_config with
                | Differs k v =>
                    (out ++ [Difference local_path convert_path k v], None)
                | Leftover remaining =>
                    files_loop local_dir convert_dir dir rest
                      (out ++ [Remainder local_path convert_path remaining])
                | Silent => files_loop local_dir convert_dir dir rest out
                end
            end
        end
  end.

(** [main], lines 8-37, on what [os.walk(local_dir)] yields: the
    directories with their files. *)
Fixpoint walk_loop (local_dir convert_dir : string)
    (file_list : list (string * list string)) (out : list line)
    : list line * option failure :=
  match file_list with
  | [] => (out, None)
  | (dir, files) :: rest =>
      match files_loop local_dir convert_dir dir files out with
      | (out, Some err) => (out, Some err)
      | (out, None) => walk_loop local_dir convert_dir rest out
      end
  end.

Definition main (local_dir convert_dir : string)
    (file_list : list (string * list string)) : list line * option failure :=
  walk_loop local_dir convert_dir file_list [].

(** *** Vocabulary of the properties *)

Definition keys (d : config) : list string := map fst d.

(** The two configurations have the same keys with equal values. *)
Definition same_content (a b : config) : Prop :=
  forall k,
    match get k a, get k b with
    | Some x, Some y => value_eqb x y = true
    | None, None => True
    | _, _ => False
    end.

End Configs.

End compare.

(** More objects to run the code on. *)

Module SampleMore.

Import dpo_trainer.

(** A separate reference module, some of whose parameters still require
    gradients when it is handed to the trainer. *)
Definition reference : Model :=
  {| internals := 2;
     parameters := [ {| pname := "ref.embeddings.weight"; requires_grad := true |};
                     {| pname := "ref.lm_head.weight"; requires_grad := false |} ];
     training := true;
     is_PeftModel := false;
     adapters_enabled := true;
     active_adapter := "default";
     is_loaded_in_8bit := false;
     is_loaded_in_4bit := false;
     has_enable_input_require_grads := false |}.

(** A policy loaded in 8-bit. *)
Definition quantized : Model :=
  {| internals := 3;
     parameters := [ {| pname := "int8.weight"; requires_grad := false |} ];
     training := true;
     is_PeftModel := false;
     adapters_enabled := true;
     active_adapter := "default";
     is_loaded_in_8bit := true;
     is_loaded_in_4bit := false;
     has_enable_input_require_grads := true |}.

(** The collaborators of [Sample], on a machine without peft. *)
Definition collaborators_without_peft : Collaborators nat nat :=
  {| is_peft_available := false;
     build_transformer_model := fun _ _ => Ret Sample.plain;
     merge_and_unload := fun m => m;
     kbit_accepts_gc_kwargs := true;
     prepare_model_for_kbit_training := fun m _ _ => m;
     enable_input_require_grads := fun i => i;
     register_make_inputs_require_grad := fun i => i;
     get_peft_model := fun m _ => m;
     peft_module_casting_to_bf16 := fun i => i;
     disable_dropout_in_model := fun i => i;
     call_model := fun m x => Ret (Sample.toy_logits m x, bfloat16);
     convert := fun _ _ p => p |}.

(** Collaborators whose forward pass fails on the input 0, and on every
    input once the adapters are disabled. *)
Definition collaborators_failing_forward : Collaborators nat nat :=
  {| is_peft_available := true;
     build_transformer_model := fun _ _ => Ret Sample.plain;
     merge_and_unload := fun m => m;
     kbit_accepts_gc_kwargs := true;
     prepare_model_for_kbit_training := fun m _ _ => m;
     enable_input_require_grads := fun i => i;
     register_make_inputs_require_grad := fun i => i;
     get_peft_model := fun m _ => m;
     peft_module_casting_to_bf16 := fun i => i;
     disable_dropout_in_model := fun i => i;
     call_model := fun m x =>
       match x with
       | O => Raise (RuntimeError "CUDA out of memory")
       | S _ => if adapters_enabled m
                then Ret (Sample.toy_logits m x, bfloat16)
                else Raise (RuntimeError "CUDA out of memory")
       end;
     convert := fun _ _ p => p |}.

(** A trainer with a separate, frozen reference model. *)
Definition ref_trainer : DPOTrainer :=
  {| model := Sample.plain;
     ref_model := Some (set_training false
                          (set_parameters (map freeze (parameters reference))
                             reference));
     is_peft_model := false;
     model_adapter_name := None; ref_adapter_name := None;
     _peft_has_been_casted_to_bf16 := false |}.

(** PPO collaborators whose reward model fails. *)
Definition ppo_collaborators_failing_reward
  : ppo_trainer_trl.Collaborators nat (string * string) :=
  {| ppo_trainer_trl.batch_generate :=
       fun _ qs _ c => (Ret (map (fun q => q ++ [7%Z]) qs), S c);
     ppo_trainer_trl.tokenizer_decode := fun _ => "an answer";
     ppo_trainer_trl.reward_tokenizer := fun q a => (q, a);
     ppo_trainer_trl.reward_model_logits :=
       fun _ => Raise (RuntimeError "CUDA out of memory");
     ppo_trainer_trl.PPOTrainer_step :=
       fun _ _ _ c => (Ret [("ppo/loss/total", (1 # 4)%Q)], S c) |}.

(** PPO collaborators whose statistics have no total loss. *)
Definition ppo_collaborators_without_loss
  : ppo_trainer_trl.Collaborators nat (string * string) :=
  {| ppo_trainer_trl.batch_generate :=
       fun _ qs _ c => (Ret (map (fun q => q ++ [7%Z]) qs), c);
     ppo_trainer_trl.tokenizer_decode := fun _ => "an answer";
     ppo_trainer_trl.reward_tokenizer := fun q a => (q, a);
     ppo_trainer_trl.reward_model_logits := fun _ => Ret [[(3 # 2)%Q]];
     ppo_trainer_trl.PPOTrainer_step :=
       fun _ _ _ c => (Ret [("ppo/loss/policy", (1 # 4)%Q)], S c) |}.

(** trl's constructor, for a run with one accumulation step. *)
Definition trl_init (_ : unit) (_ : option Q) : outcome (nat * nat) :=
  Ret (0, 1).

(** A tokenizer that keeps at most [n] ids, one per character. *)
Definition toy_encode (text : string) (_ : bool) (n : nat) : list Z :=
  firstn n (repeat 5%Z (String.length text)).

Definition toy_tokenizer (text : string) : list Z :=
  [Z.of_nat (String.length text)].

Definition toy_padding (rows : list (list Z)) (_ : Z) : list (list Z) := rows.

Definition conversations : list (list step3_rlhf.message) :=
  [ [ {| step3_rlhf.value := "What is DPO?"; step3_rlhf.from := EmptyString |};
      {| step3_rlhf.value := "Summarise."; step3_rlhf.from := "human" |} ] ].

(** A small file system: one local configuration, no converted one. *)
Definition toy_read (path : string) : option (compare.config nat) :=
  if String.eqb path "local/bert/bert4torch_config.json"
  then Some [("hidden_size", 768); ("num_layers", 12)]
  else None.

Definition toy_join (dir file : string) : string :=
  (dir ++ "/" ++ file)%string.

Definition toy_replace (path _ _ : string) : string :=
  ("convert/" ++ path)%string.

(** A PPO trainer before its first step, its decoder in the given mode,
    with an empty record of generation calls. *)
Definition observed_ppo_trainer (lm : bool)
  : @ppo_trainer_trl.PPOTrainerTrl (nat * list bool) :=
  {| ppo_trainer_trl.with_lm := lm;
     ppo_trainer_trl.generation_kwargs := [("topp", "1.0")];
     ppo_trainer_trl.reward_baseline := 0%Q;
     ppo_trainer_trl.question_tensors := None;
     ppo_trainer_trl.response_tensors := None;
     ppo_trainer_trl.rewards := None;
     ppo_trainer_trl.ppo_step := None;
     ppo_trainer_trl.core := (0, []);
     ppo_trainer_trl.updates := 0 |}.

End SampleMore.

(* ===================================================================== *)
(** ** Properties of the DPO trainer                                      *)
(* ===================================================================== *)

Module DPO.

Import dpo_trainer.

Section Construction.

Context {Inputs Payload : Type} {ext : Collaborators Inputs Payload}.

Lemma attach_adapter_rejects_ref_model :
  forall model ref args cfg,
    exists msg,
      attach_adapter model (Some ref) args cfg false
      = Raise (ValueError msg).
Proof. intros. unfold attach_adapter. simpl. eauto. Qed.

(** C5.  With a reference model and a [peft_config], and
    [force_use_ref_model] left false, construction never returns a
    trainer: it raises, so no forward pass can follow.  Unless the model
    builder itself fails first on a checkpoint identifier, the exception
    is the [ValueError] of a configuration conflict. *)
Theorem init_rejects_ref_model_with_peft_config :
  forall policy reference args model_init_kwargs ref_model_init_kwargs
         policy_adapter reference_adapter peft_config disable_dropout,
    exists e,
      __init__ policy (Some reference) args model_init_kwargs
        ref_model_init_kwargs policy_adapter reference_adapter
        (Some peft_config) disable_dropout false = Raise e
      /\ ((forall path kw, raised (build_transformer_model path kw) = false)
          -> exists msg, e = ValueError msg).
Proof.
  intros. unfold __init__.
  assert (Hend : forall e : exn,
             (exists msg, e = ValueError msg) ->
             exists e', Raise (A := DPOTrainer) e = Raise e'
               /\ ((forall path kw,
                      raised (build_transformer_model path kw) = false)
                   -> exists msg, e' = ValueError msg))
    by (intros e He; exists e; split; [ reflexivity | intros _; exact He ]).
  assert (Hbuild : forall p k e,
             build_transformer_model p k = Raise e ->
             exists e', Raise (A := DPOTrainer) e = Raise e'
               /\ ((forall path kw,
                      raised (build_transformer_model path kw) = false)
                   -> exists msg, e' = ValueError msg)).
  { intros p k e He. exists e. split; [ reflexivity | ].
    intros H. specialize (H p k). rewrite He in H. discriminate. }
  destruct model_init_kwargs as [kw|];
    [ destruct (is_str policy); cbn [negb obind]; [ | eauto ] | cbn [obind] ].
  all: destruct ref_model_init_kwargs as [rkw|];
    [ destruct (is_str_opt (Some reference)); cbn [negb obind]; [ | eauto ]
    | cbn [obind] ].
  all: destruct policy as [path|m];
    [ destruct (build_transformer_model path _) as [m|e] eqn:Em;
      cbn [obind]; [ | eauto ]
    | cbn [obind] ].
  all: destruct reference as [rpath|r];
    [ destruct (build_transformer_model rpath _) as [r|e] eqn:Er;
      cbn [obind]; [ | eauto ]
    | cbn [obind] ].
  all: destruct is_peft_available; cbn [negb obind]; [ | eauto ].
  all: destruct (attach_adapter_rejects_ref_model m r args peft_config)
         as [msg ->]; cbn [obind]; eauto.
Qed.

Lemma in_place_is_PeftModel :
  forall f m, is_PeftModel (in_place f m) = is_PeftModel m.
Proof. reflexivity. Qed.

Lemma make_inputs_require_grad_is_PeftModel :
  forall m, is_PeftModel (make_inputs_require_grad m) = is_PeftModel m.
Proof.
  intros m. unfold make_inputs_require_grad.
  destruct (has_enable_input_require_grads m); reflexivity.
Qed.

(** Construction from an instantiated plain module, with no reference
    model and no adapter configuration, runs to the end. *)
Lemma init_without_reference :
  forall m args policy_adapter reference_adapter disable_dropout force,
    is_PeftModel m = false ->
    __init__ (ModelObj m) None args None None policy_adapter
      reference_adapter None disable_dropout force
    = Ret {| model := stored_policy m args disable_dropout;
             ref_model := None;
             is_peft_model := false;
             model_adapter_name := policy_adapter;
             ref_adapter_name := reference_adapter;
             _peft_has_been_casted_to_bf16 := false |}.
Proof.
  intros m args pa ra dd force Hm.
  unfold __init__, stored_policy. cbn [obind].
  destruct (getattr_gradient_checkpointing args); cbn [obind].
  - rewrite make_inputs_require_grad_is_PeftModel, Hm, andb_false_r.
    destruct dd; reflexivity.
  - rewrite Hm, andb_false_r. destruct dd; reflexivity.
Qed.

(** C6, as the code has it.  With an instantiated module that is not
    adapter-augmented, no reference model and no adapter configuration,
    construction raises nothing: it returns a trainer whose reference
    model is [None] and whose [is_peft_model] is false.  The constructor
    does not check that a reference mode can be resolved. *)
Theorem init_accepts_missing_reference :
  forall m args policy_adapter reference_adapter disable_dropout force,
    is_PeftModel m = false ->
    exists t,
      __init__ (ModelObj m) None args None None policy_adapter
        reference_adapter None disable_dropout force = Ret t
      /\ ref_model t = None
      /\ is_peft_model t = false.
Proof.
  intros m args pa ra dd force Hm.
  eexists. split; [ apply init_without_reference; exact Hm | ].
  split; reflexivity.
Qed.

End Construction.

Section Scope.

Context {Inputs Payload : Type} {ext : Collaborators Inputs Payload}.

Ltac unfold_py :=
  unfold null_ref_context, set_adapter, with_, bind, get, ret, raise,
    modify, when, disable_adapter, nullcontext in *;
  cbn [enter exit] in *.

Ltac run_body body w1 Hbody :=
  let o := fresh "o" in
  let w2 := fresh "w" in
  let E := fresh "E" in
  let H := fresh "H" in
  pose proof (Hbody w1) as H;
  destruct (body w1) as [o w2] eqn:E; cbn [snd] in H;
  destruct o; cbn.

(** Named-reference-adapter mode on an adapter-augmented model: the
    reference adapter is selected, the body runs, and only a body that
    returns reaches the statement that selects the policy adapter
    again. *)
Lemma null_ref_context_named :
  forall A (body : run (@World Inputs) A) (w : @World Inputs) c s,
    ref_adapter_name (self w) = Some (String c s) ->
    is_PeftModel (model (self w)) = true ->
    preserves_self body ->
    null_ref_context body w
    = match body (update_model (set_active_adapter (String c s)) w) with
      | (Ret a, w2) =>
          (Ret a,
           update_model
             (set_active_adapter
                (or_else (model_adapter_name (self w)) "default")) w2)
      | (Raise e, w2) => (Raise e, w2)
      end.
Proof.
  intros A body w c s Hran Hpeft Hbody.
  unfold_py. rewrite Hran. cbn [truthy negb]. rewrite andb_false_r.
  unfold_py. rewrite Hran, Hpeft.
  run_body body (update_model (set_active_adapter (String c s)) w) Hbody;
    [ | reflexivity ].
  rewrite H. cbn. rewrite Hran. cbn. rewrite H. cbn. rewrite Hpeft.
  reflexivity.
Qed.

(** The same mode on a module without adapters: selecting the reference
    adapter fails and the body is not run. *)
Lemma null_ref_context_named_plain :
  forall A (body : run (@World Inputs) A) (w : @World Inputs) c s,
    ref_adapter_name (self w) = Some (String c s) ->
    is_PeftModel (model (self w)) = false ->
    null_ref_context body w = (Raise (AttributeError "set_adapter"), w).
Proof.
  intros A body w c s Hran Hpeft.
  unfold_py. rewrite Hran. cbn [truthy negb]. rewrite andb_false_r.
  unfold_py. rewrite Hran, Hpeft. reflexivity.
Qed.

(** Adapter-disable mode: the adapters are off around the body and on
    again afterwards, whether the body returns or raises. *)
Lemma null_ref_context_disable :
  forall A (body : run (@World Inputs) A) (w : @World Inputs),
    truthy (ref_adapter_name (self w)) = false ->
    is_peft_model (self w) = true ->
    preserves_self body ->
    null_ref_context body w
    = let (o, w2) := body (update_model (set_adapters_enabled false) w) in
      (o, update_model (set_adapters_enabled true) w2).
Proof.
  intros A body w Hran Hpeft Hbody.
  unfold_py. rewrite Hran, Hpeft. cbn [andb negb]. unfold_py.
  destruct (ref_adapter_name (self w)) as [[|c s]|] eqn:Hname;
    try discriminate; cbn.
  all: rewrite Hname.
  all: run_body body (update_model (set_adapters_enabled false) w) Hbody;
    [ | reflexivity ].
  all: rewrite H; cbn; rewrite Hname; reflexivity.
Qed.

(** Neither mode: the scope adds nothing to its body. *)
Lemma null_ref_context_noop :
  forall A (body : run (@World Inputs) A) (w : @World Inputs),
    truthy (ref_adapter_name (self w)) = false ->
    is_peft_model (self w) = false ->
    preserves_self body ->
    null_ref_context body w = body w.
Proof.
  intros A body w Hran Hpeft Hbody.
  unfold_py. rewrite Hran, Hpeft. cbn [andb negb]. unfold_py.
  destruct (ref_adapter_name (self w)) as [[|c s]|] eqn:Hname;
    try discriminate; cbn.
  all: run_body body w Hbody; [ | reflexivity ].
  all: rewrite H, Hname; reflexivity.
Qed.

(** The sibling path: in adapter-disable mode the exit of the inner
    [with] runs on every path, so the adapters are enabled again and the
    selection is the one found on entry, also when the body raises. *)
Lemma null_ref_context_disable_restores :
  forall A (body : run (@World Inputs) A) (w : @World Inputs),
    truthy (ref_adapter_name (self w)) = false ->
    is_peft_model (self w) = true ->
    preserves_self body ->
    let (o, w') := null_ref_context body w in
    o = fst (body (update_model (set_adapters_enabled false) w))
    /\ active_adapter (model (self w')) = active_adapter (model (self w))
    /\ adapters_enabled (model (self w')) = true.
Proof.
  intros A body w Hran Hpeft Hbody.
  rewrite null_ref_context_disable by assumption.
  pose proof (Hbody (update_model (set_adapters_enabled false) w)) as H.
  destruct (body _) as [o w2]. cbn in H |- *. rewrite H.
  repeat split.
Qed.

(** In named-reference-adapter mode a body that raises leaves the
    reference adapter selected: the statement after the [yield] is not
    reached. *)
Lemma null_ref_context_named_raise :
  forall A (body : run (@World Inputs) A) (w w2 : @World Inputs) c s e,
    ref_adapter_name (self w) = Some (String c s) ->
    is_PeftModel (model (self w)) = true ->
    preserves_self body ->
    body (update_model (set_active_adapter (String c s)) w) = (Raise e, w2) ->
    null_ref_context body w = (Raise e, w2)
    /\ active_adapter (model (self w2)) = String c s.
Proof.
  intros A body w w2 c s e Hran Hpeft Hbody Hraise.
  rewrite null_ref_context_named with (c := c) (s := s) by assumption.
  rewrite Hraise. split; [ reflexivity | ].
  pose proof (Hbody (update_model (set_active_adapter (String c s)) w)) as H.
  rewrite Hraise in H. cbn in H. rewrite H. reflexivity.
Qed.

(** C3, as the code has it.  When the scope is left normally, the active
    adapter is the configured [model_adapter_name], or [default] when
    that is unset or empty, if a reference adapter is configured, and
    the selection found on entry otherwise.  So entering and leaving is
    the identity on the selection exactly when no reference adapter is
    configured or the selection found on entry already is the configured
    one. *)
Theorem null_ref_context_exit_selection :
  forall A (body : run (@World Inputs) A) (w w' : @World Inputs) (a : A),
    preserves_self body ->
    null_ref_context body w = (Ret a, w') ->
    let before := active_adapter (model (self w)) in
    let after := active_adapter (model (self w')) in
    let configured := or_else (model_adapter_name (self w)) "default" in
    after = (if truthy (ref_adapter_name (self w))
             then configured else before)
    /\ (after = before
        <-> truthy (ref_adapter_name (self w)) = false
            \/ before = configured).
Proof.
  intros A body w w' a Hbody Hrun. cbv zeta.
  assert (Hafter :
            active_adapter (model (self w'))
            = if truthy (ref_adapter_name (self w))
              then or_else (model_adapter_name (self w)) "default"
              else active_adapter (model (self w))).
  { destruct (truthy (ref_adapter_name (self w))) eqn:Hran.
    - destruct (ref_adapter_name (self w)) as [[|c s]|] eqn:Hname;
        try discriminate.
      destruct (is_PeftModel (model (self w))) eqn:Hpeft.
      + rewrite null_ref_context_named with (c := c) (s := s) in Hrun
          by assumption.
        destruct (body _) as [[a0|e] w2]; inversion Hrun; reflexivity.
      + rewrite null_ref_context_named_plain with (c := c) (s := s) in Hrun
          by assumption.
        discriminate.
    - destruct (is_peft_model (self w)) eqn:Hpeft.
      + rewrite null_ref_context_disable in Hrun by assumption.
        pose proof (Hbody (update_model (set_adapters_enabled false) w))
          as H.
        destruct (body _) as [o w2]. inversion Hrun; subst.
        cbn in H |- *. rewrite H. reflexivity.
      + rewrite null_ref_context_noop in Hrun by assumption.
        pose proof (Hbody w) as H. rewrite Hrun in H. cbn in H.
        rewrite H. reflexivity. }
  split; [ exact Hafter | ].
  rewrite Hafter.
  destruct (truthy (ref_adapter_name (self w))).
  - split; [ intros H; right; symmetry; exact H
           | intros [H|H]; [ discriminate | symmetry; exact H ] ].
  - split; [ intros _; left; reflexivity | reflexivity ].
Qed.

End Scope.

Section Forward.

Context {Inputs Payload : Type} {ext : Collaborators Inputs Payload}.

Lemma call_in_float32 :
  forall (m : Model) (x : Inputs) (w : @World Inputs),
    (t <- _argparse_forward m x ;; ret (to float32 t)) w
    = (forward_output m x (grad_enabled w),
       log_call (call_of m x (grad_enabled w)) w).
Proof.
  intros m x w. unfold bind, _argparse_forward, forward_output, ret.
  destruct (call_model m x) as [[d ty]|e]; reflexivity.
Qed.

(** The body of the null-reference scope in [_forward]. *)
Lemma scope_body_run :
  forall (x : Inputs) (w : @World Inputs),
    (w0 <- get ;;
     t <- _argparse_forward (model (self w0)) x ;;
     ret (to float32 t)) w
    = (forward_output (model (self w)) x (grad_enabled w),
       log_call (call_of (model (self w)) x (grad_enabled w)) w).
Proof.
  intros x w. unfold bind at 1. unfold get. apply call_in_float32.
Qed.

Lemma scope_body_preserves_self :
  forall x : Inputs,
    preserves_self
      (w0 <- get ;;
       t <- _argparse_forward (model (self w0)) x ;;
       ret (to float32 t)).
Proof. intros x w. rewrite scope_body_run. reflexivity. Qed.

Lemma forward_output_float32 :
  forall m x grad t, forward_output m x grad = Ret t -> dtype_of t = float32.
Proof.
  unfold forward_output. intros m x grad t H.
  destruct (call_model m x) as [[d ty]|e]; inversion H; reflexivity.
Qed.

Lemma forward_output_no_grad :
  forall m x t, forward_output m x false = Ret t -> grad_leaves t = [].
Proof.
  unfold forward_output. intros m x t H.
  destruct (call_model m x) as [[d ty]|e]; inversion H; reflexivity.
Qed.

(** The statements of [_forward] inside [with torch.no_grad()]. *)
Let reference_block (x : Inputs)
    : run (@World Inputs) (Tensor Payload) :=
  w <- get ;;
  match ref_model (self w) with
  | None =>
      null_ref_context
        (w <- get ;;
         t <- _argparse_forward (model (self w)) x ;;
         ret (to float32 t))
  | Some ref =>
      t <- _argparse_forward ref x ;;
      ret (to float32 t)
  end.

Lemma forward_unfold :
  forall (x : Inputs) (w : @World Inputs),
    _forward x w
    = let c1 := call_of (model (self w)) x (grad_enabled w) in
      match forward_output (model (self w)) x (grad_enabled w) with
      | Raise e => (Raise e, log_call c1 w)
      | Ret policy_logits =>
          let (o, w2) :=
            reference_block x (set_grad_enabled false (log_call c1 w)) in
          (match o with
           | Ret reference_logits =>
               Ret (policy_logits, reference_logits)
           | Raise e => Raise e
           end,
           set_grad_enabled (grad_enabled w) w2)
      end.
Proof.
  intros x w.
  unfold _forward, forward_output.
  unfold bind at 1. unfold get at 1.
  unfold bind at 1. unfold _argparse_forward at 1.
  destruct (call_model (model (self w)) x) as [[d ty]|e]; [ | reflexivity ].
  unfold bind at 1. unfold with_ at 1. unfold no_grad at 1 2.
  cbn [enter exit]. unfold bind at 1. unfold get at 1.
  unfold bind at 1. unfold modify at 1. unfold ret at 1.
  fold (reference_block x).
  cbn [grad_enabled log_call].
  destruct (reference_block x _) as [[r|e] w2]; reflexivity.
Qed.

(** What the reference pass does, mode by mode, once gradient tracking
    is off. *)
Lemma reference_block_run :
  forall (x : Inputs) (w : @World Inputs),
    grad_enabled w = false ->
    reference_block x w
    = let t := self w in
      let c := call_of (reference_callee t) x false in
      match ref_model t with
      | Some ref => (forward_output ref x false, log_call c w)
      | None =>
          match ref_adapter_name t with
          | Some (String a s) =>
              if is_PeftModel (model t) then
                let w2 :=
                  log_call c
                    (update_model (set_active_adapter (String a s)) w) in
                match forward_output (scoped_policy t) x false with
                | Ret r =>
                    (Ret r,
                     update_model
                       (set_active_adapter
                          (or_else (model_adapter_name t) "default")) w2)
                | Raise e => (Raise e, w2)
                end
              else (Raise (AttributeError "set_adapter"), w)
          | _ =>
              if is_peft_model t then
                (forward_output (scoped_policy t) x false,
                 update_model (set_adapters_enabled true)
                   (log_call c
                      (update_model (set_adapters_enabled false) w)))
              else (forward_output (model t) x false, log_call c w)
          end
      end.
Proof.
  intros x w Hoff.
  unfold reference_block, reference_callee, scoped_policy.
  unfold bind at 1. unfold get at 1. cbv zeta.
  destruct (ref_model (self w)) as [ref|] eqn:Href.
  - rewrite call_in_float32, Hoff. reflexivity.
  - destruct (ref_adapter_name (self w)) as [[|a s]|] eqn:Hran.
    + destruct (is_peft_model (self w)) eqn:Hpeft.
      * rewrite null_ref_context_disable;
          [ | rewrite Hran; reflexivity | exact Hpeft
            | apply scope_body_preserves_self ].
        rewrite scope_body_run. cbn. rewrite Hoff. reflexivity.
      * rewrite null_ref_context_noop;
          [ | rewrite Hran; reflexivity | exact Hpeft
            | apply scope_body_preserves_self ].
        rewrite scope_body_run, Hoff. reflexivity.
    + destruct (is_PeftModel (model (self w))) eqn:Hpeft.
      * rewrite null_ref_context_named with (c := a) (s := s);
          [ | exact Hran | exact Hpeft | apply scope_body_preserves_self ].
        rewrite scope_body_run. cbn. rewrite Hoff.
        destruct (forward_output _ x false); reflexivity.
      * rewrite null_ref_context_named_plain with (c := a) (s := s);
          [ reflexivity | exact Hran | exact Hpeft ].
    + destruct (is_peft_model (self w)) eqn:Hpeft.
      * rewrite null_ref_context_disable;
          [ | rewrite Hran; reflexivity | exact Hpeft
            | apply scope_body_preserves_self ].
        rewrite scope_body_run. cbn. rewrite Hoff. reflexivity.
      * rewrite null_ref_context_noop;
          [ | rewrite Hran; reflexivity | exact Hpeft
            | apply scope_body_preserves_self ].
        rewrite scope_body_run, Hoff. reflexivity.
Qed.

(** C1.  Whatever the reference mode, every model invocation of
    [_forward] after the policy pass runs with gradient tracking off,
    and when [_forward] returns, the reference logits come from such an
    invocation and have no autograd graph: a backward pass from a loss
    built on them alone reaches no parameter, of the policy or of the
    reference model. *)
Theorem forward_reference_carries_no_gradient :
  forall (x : Inputs) (w : @World Inputs),
    let (o, w') := _forward x w in
    (exists c1 rest,
        trace w' = trace w ++ c1 :: rest
        /\ Forall (fun c => call_grad c = false) rest)
    /\ match o with
       | Ret (policy_logits, reference_logits) =>
           backward reference_logits = []
           /\ exists c1 c2,
                trace w' = trace w ++ [c1; c2] /\ call_grad c2 = false
       | Raise _ => True
       end.
Proof.
  intros x w. rewrite forward_unfold. cbv zeta.
  destruct (forward_output (model (self w)) x (grad_enabled w))
    as [p|e] eqn:Hp.
  2: { split; [ | exact I ].
       eexists; exists []. split; [ reflexivity | constructor ]. }
  rewrite reference_block_run by reflexivity. cbn.
  destruct (ref_model (self w)) as [ref|];
    [ | destruct (ref_adapter_name (self w)) as [[|a s]|];
        [ destruct (is_peft_model (self w))
        | destruct (is_PeftModel (model (self w)))
        | destruct (is_peft_model (self w)) ] ].
  all: try match goal with
         | |- context [forward_output ?m ?y false] =>
             let Hr := fresh "Hr" in
             destruct (forward_output m y false) as [r|e] eqn:Hr;
             [ apply forward_output_no_grad in Hr | ]
         end.
  all: cbn; rewrite <- ?app_assoc; cbn.
  all: split;
    [ eexists; eexists; split; [ reflexivity | repeat constructor ]
    | try exact I ].
  all: split; [ assumption | ].
  all: eexists; eexists; split; reflexivity.
Qed.

Lemma forward_output_grad_leaves :
  forall m x grad t,
    forward_output m x grad = Ret t ->
    grad_leaves t = if grad then trainable (parameters m) else [].
Proof.
  unfold forward_output. intros m x grad t H.
  destruct (call_model m x) as [[d ty]|e]; inversion H; reflexivity.
Qed.

(** C8.  When the policy call and the reference call succeed,
    [_forward] returns the pair of their outputs converted to
    [float32].  The policy logits are the output of [self.model] under
    the gradient mode of the caller, with their graph; the reference
    logits are the output of [self.ref_model] when there is one, and
    otherwise of [self.model] as the null-reference scope sets it up,
    without a graph.  Two invocations are logged, on the same inputs. *)
Theorem forward_returns_float32_pair :
  forall (x : Inputs) (w : @World Inputs) (p r : Tensor Payload),
    forward_output (model (self w)) x (grad_enabled w) = Ret p ->
    forward_output (reference_callee (self w)) x false = Ret r ->
    (ref_model (self w) = None ->
     truthy (ref_adapter_name (self w)) = true ->
     is_PeftModel (model (self w)) = true) ->
    _forward x w
    = (Ret (p, r),
       {| grad_enabled := grad_enabled w;
          self := after_reference_pass (self w);
          trace := trace w
                   ++ [ call_of (model (self w)) x (grad_enabled w);
                        call_of (reference_callee (self w)) x false ] |})
    /\ dtype_of p = float32
    /\ dtype_of r = float32
    /\ grad_leaves p
       = (if grad_enabled w
          then trainable (parameters (model (self w))) else [])
    /\ grad_leaves r = [].
Proof.
  intros x w p r Hp Hr Hset.
  split;
    [ | repeat split;
        eauto using forward_output_float32, forward_output_no_grad,
          forward_output_grad_leaves ].
  rewrite forward_unfold. cbv zeta. rewrite Hp.
  rewrite reference_block_run by reflexivity. cbn.
  unfold after_reference_pass. unfold reference_callee in *.
  unfold scoped_policy in *.
  destruct (ref_model (self w)) as [ref|];
    [ | destruct (ref_adapter_name (self w)) as [[|a s]|];
        [ destruct (is_peft_model (self w))
        | rewrite (Hset eq_refl eq_refl)
        | destruct (is_peft_model (self w)) ] ];
    rewrite Hr;
    unfold set_grad_enabled, log_call, update_model; cbn;
    rewrite <- app_assoc; reflexivity.
Qed.

End Forward.

Section SelfReference.

Context {Inputs Payload : Type} {ext : Collaborators Inputs Payload}.

(** With no reference model and neither adapter mode, the reference
    pass is a second call of the policy, unchanged, with gradient
    tracking off. *)
Lemma forward_without_reference :
  forall (x : Inputs) (w : @World Inputs),
    ref_model (self w) = None ->
    is_peft_model (self w) = false ->
    truthy (ref_adapter_name (self w)) = false ->
    let m := model (self w) in
    let calls := [ call_of m x (grad_enabled w); call_of m x false ] in
    _forward x w
    = match call_model m x with
      | Ret (d, ty) =>
          (Ret ({| data := convert ty float32 d; dtype_of := float32;
                   grad_leaves := if grad_enabled w
                                  then trainable (parameters m) else [] |},
                {| data := convert ty float32 d; dtype_of := float32;
                   grad_leaves := [] |}),
           {| grad_enabled := grad_enabled w; self := self w;
              trace := trace w ++ calls |})
      | Raise e => (Raise e, log_call (call_of m x (grad_enabled w)) w)
      end.
Proof.
  intros x w Href Hpeft Hran. cbv zeta.
  rewrite forward_unfold. cbv zeta. unfold forward_output at 1.
  destruct (call_model (model (self w)) x) as [[d ty]|e] eqn:Hcall;
    [ | reflexivity ].
  rewrite reference_block_run by reflexivity. cbn.
  rewrite Href, Hpeft.
  assert (Hcallee : reference_callee (self w) = model (self w)).
  { unfold reference_callee, scoped_policy. rewrite Href, Hpeft.
    destruct (ref_adapter_name (self w)) as [[|c s]|];
      [ reflexivity | discriminate | reflexivity ]. }
  rewrite Hcallee. unfold forward_output. rewrite Hcall.
  unfold set_grad_enabled, log_call, to. cbn. rewrite <- app_assoc.
  destruct (ref_adapter_name (self w)) as [[|c s]|];
    [ reflexivity | discriminate | reflexivity ].
Qed.

(** C10.  Constructed from an instantiated module that is not
    adapter-augmented, with no reference model, no adapter configuration
    and no reference adapter name, the trainer is returned without
    error; its null-reference scope adds nothing to a body that leaves
    the trainer alone; and [_forward] calls the same, unchanged policy
    module twice on the same inputs, the second time with gradient
    tracking off, so the reference logits carry the values of the
    policy logits. *)
Theorem init_without_reference_reuses_policy :
  forall m args policy_adapter disable_dropout force,
    is_PeftModel m = false ->
    exists t,
      __init__ (ModelObj m) None args None None policy_adapter None None
        disable_dropout force = Ret t
      /\ ref_model t = None
      /\ (forall A (body : run (@World Inputs) A) w,
             self w = t -> preserves_self body ->
             null_ref_context body w = body w)
      /\ (forall (x : Inputs) (w : @World Inputs),
             self w = t ->
             let calls := [ call_of (model t) x (grad_enabled w);
                            call_of (model t) x false ] in
             _forward x w
             = match call_model (model t) x with
               | Ret (d, ty) =>
                   (Ret ({| data := convert ty float32 d;
                            dtype_of := float32;
                            grad_leaves :=
                              if grad_enabled w
                              then trainable (parameters (model t))
                              else [] |},
                         {| data := convert ty float32 d;
                            dtype_of := float32;
                            grad_leaves := [] |}),
                    {| grad_enabled := grad_enabled w; self := t;
                       trace := trace w ++ calls |})
               | Raise e =>
                   (Raise e,
                    log_call (call_of (model t) x (grad_enabled w)) w)
               end).
Proof.
  intros m args pa dd force Hm.
  eexists. split; [ apply init_without_reference; exact Hm | ].
  split; [ reflexivity | ]. split.
  - intros A body w Hself Hbody.
    apply null_ref_context_noop; [ | | exact Hbody ];
      rewrite Hself; reflexivity.
  - intros x w Hself. cbv zeta.
    rewrite forward_without_reference by (rewrite Hself; reflexivity).
    rewrite Hself. reflexivity.
Qed.

End SelfReference.

End DPO.

(* ===================================================================== *)
(** ** Properties of the PPO trainer                                      *)
(* ===================================================================== *)

Module PPO.

Import ppo_trainer_trl.

(** *** Reward shaping *)

Lemma calculate_rewards_loop_spec :
  forall (tensors : list (list Q)) (b : Q) (rewards : list pyfloat),
    calculate_rewards_loop (map ScoreTensor tensors) b rewards
    = Ret (rewards ++ map (reward_shaping b) tensors).
Proof.
  induction tensors as [|t rest IH]; intros b rewards; cbn [map].
  - cbn. rewrite app_nil_r. reflexivity.
  - cbn [calculate_rewards_loop].
    destruct t as [|x [|y t']]; cbn [numel length Nat.eqb item obind].
    + rewrite IH, <- app_assoc. reflexivity.
    + rewrite IH, <- app_assoc. reflexivity.
    + rewrite IH, <- app_assoc. reflexivity.
Qed.

(** C4.  On score tensors, with any baseline (0 when none is given),
    [calculate_rewards] returns the shaped reward of each sample, one per
    sample and in the order of the samples: the element minus the
    baseline for a one-element tensor, the mean of the elements minus the
    baseline for a tensor of more than one element.  The result is a
    function of the two arguments alone. *)
Theorem calculate_rewards_shapes_each_sample :
  forall (tensors : list (list Q)) (reward_baseline : option Q),
    let b := match reward_baseline with Some b => b | None => 0%Q end in
    exists rewards,
      calculate_rewards (map ScoreTensor tensors) reward_baseline
      = Ret rewards
      /\ rewards = map (reward_shaping b) tensors
      /\ length rewards = length tensors
      /\ (forall i x,
             nth_error tensors i = Some [x] ->
             nth_error rewards i = Some (Num (x - b)%Q))
      /\ (forall i t,
             nth_error tensors i = Some t ->
             (1 < numel t)%nat ->
             nth_error rewards i
             = Some (Num (total t / inject_Z (Z.of_nat (numel t)) - b)%Q))
      /\ (forall scores scores' baseline baseline',
             scores = scores' -> baseline = baseline' ->
             calculate_rewards scores baseline
             = calculate_rewards scores' baseline').
Proof.
  intros tensors reward_baseline b.
  exists (map (reward_shaping b) tensors).
  split; [ | split; [ reflexivity | split; [ apply length_map | ] ] ].
  2: split; [ | split; [ | intros; subst; reflexivity ] ].
  - unfold calculate_rewards. fold b.
    rewrite calculate_rewards_loop_spec. reflexivity.
  - intros i x Hi. rewrite nth_error_map, Hi. reflexivity.
  - intros i t Hi Hn. rewrite nth_error_map, Hi. cbn [option_map].
    destruct t as [|x [|y t']]; cbn in Hn; try lia. reflexivity.
Qed.

Section UpdateEngine.

Context {Core RewardInputs : Type} {ext : Collaborators Core RewardInputs}.

(** With the flag down, [step] does nothing and returns [None]. *)
Lemma step_idle :
  forall s : @PPOTrainerTrl Core, ppo_step s = Some false -> step s = (Ret None, s).
Proof.
  intros s Hflag. unfold step, bind, get, getattr. rewrite Hflag.
  reflexivity.
Qed.

(** With the flag up, [step] takes it down before anything else, and
    calls trl's [step] at most once. *)
Lemma step_consumes_flag :
  forall s : @PPOTrainerTrl Core,
    ppo_step s = Some true ->
    let (o, s1) := step s in
    ppo_step s1 = Some false
    /\ (updates s1 <= S (updates s))%nat
    /\ (raised o = false -> updates s1 = S (updates s))
    /\ with_lm s1 = with_lm s.
Proof.
  intros s Hflag. unfold step, bind, get, getattr, modify, on_core, ret, raise.
  rewrite Hflag. cbn.
  destruct (question_tensors s) as [q|]; cbn;
    [ | repeat split; [ lia | discriminate ] ].
  destruct (response_tensors s) as [r|]; cbn;
    [ | repeat split; [ lia | discriminate ] ].
  destruct (rewards s) as [rw|]; cbn;
    [ | repeat split; [ lia | discriminate ] ].
  destruct (PPOTrainer_step q r rw (core s)) as [[stats|e] c]; cbn;
    repeat split; lia.
Qed.

(** C7.  Once the flag is up, the first [step] consumes it and invokes
    the policy-gradient update of trl at most once; a second [step]
    that follows it directly invokes nothing, changes nothing and
    returns [None]. *)
Theorem step_updates_at_most_once :
  forall s : @PPOTrainerTrl Core,
    ppo_step s = Some true ->
    let (o1, s1) := step s in
    let (o2, s2) := step s1 in
    (updates s1 <= S (updates s))%nat
    /\ o2 = Ret None
    /\ s2 = s1.
Proof.
  intros s Hflag.
  pose proof (step_consumes_flag s Hflag) as H.
  destruct (step s) as [o1 s1]. destruct H as (Hdown & Hle & _).
  rewrite (step_idle s1 Hdown). repeat split. exact Hle.
Qed.

(** [train_step] once generation has returned: the rest of the method,
    from the state generation leaves. *)
Lemma train_step_after_generation :
  forall (train_X : batch) (s : @PPOTrainerTrl Core) q query resp c,
    fields train_X = Some (q, query) ->
    batch_generate true q (generation_kwargs s) (core s) = (Ret resp, c) ->
    let generated := set_with_lm false (set_core c (set_with_lm true s)) in
    train_step train_X s
    = match score_all (combine query (map tokenizer_decode resp)) with
      | Raise e => (Raise e, generated)
      | Ret score_outputs =>
          match calculate_rewards score_outputs
                  (Some (reward_baseline s)) with
          | Raise e => (Raise e, generated)
          | Ret rw =>
              match step (set_ppo_step true (stage q resp rw generated)) with
              | (Raise e, s1) => (Raise e, s1)
              | (Ret None, s1) =>
                  (Raise (TypeError "'NoneType' object is not subscriptable"),
                   s1)
              | (Ret (Some stats), s1) =>
                  match lookup "ppo/loss/total" stats with
                  | Some loss => (Ret (loss, stats), s1)
                  | None => (Raise (KeyError "ppo/loss/total"), s1)
                  end
              end
          end
      end.
Proof.
  intros train_X s q query resp c Hfields Hgen. cbv zeta.
  unfold train_step.
  assert (Hq : (match train_X with
                | Sequence q query => ret (q, query)
                | Mapping q query => ret (q, query)
                | Unsupported =>
                    raise (ValueError "Args `train_X` format illegel")
                end : run (@PPOTrainerTrl Core) _) = ret (q, query)).
  { destruct train_X; inversion Hfields; reflexivity. }
  rewrite Hq. unfold bind at 1. unfold ret at 1.
  unfold bind at 1. unfold modify at 1.
  unfold bind at 1. unfold get at 1.
  unfold bind at 1. unfold on_core at 1. cbn [core set_with_lm with_lm generation_kwargs].
  rewrite Hgen.
  unfold bind at 1. unfold modify at 1.
  unfold bind at 1. unfold lift at 1.
  destruct (score_all _) as [score_outputs|e]; [ | reflexivity ].
  unfold bind at 1. unfold get at 1.
  unfold bind at 1. unfold lift at 1.
  cbn [reward_baseline set_with_lm set_core].
  destruct (calculate_rewards _ _) as [rw|e]; [ | reflexivity ].
  unfold bind at 1. unfold modify at 1.
  unfold bind at 1. unfold modify at 1.
  unfold bind at 1.
  destruct (step _) as [[[stats|]|e] s1]; try reflexivity.
  destruct (lookup _ stats); reflexivity.
Qed.

(** When generation raises, [train_step] stops there, with the decoding
    mode still switched on. *)
Lemma train_step_generation_raises :
  forall (train_X : batch) (s : @PPOTrainerTrl Core) q query e c,
    fields train_X = Some (q, query) ->
    batch_generate true q (generation_kwargs s) (core s) = (Raise e, c) ->
    train_step train_X s = (Raise e, set_core c (set_with_lm true s)).
Proof.
  intros train_X s q query e c Hfields Hgen.
  unfold train_step.
  destruct train_X; inversion Hfields; subst.
  all: unfold bind, ret, modify, get, on_core; cbn.
  all: rewrite Hgen; reflexivity.
Qed.

(** Once the [batch_generate] call of [train_step] has returned, the
    decoding mode is off, whatever it was before the step and whatever
    the rest of the step does. *)
Lemma train_step_leaves_with_lm_off :
  forall (train_X : batch) (s : @PPOTrainerTrl Core) q query resp c,
    fields train_X = Some (q, query) ->
    batch_generate true q (generation_kwargs s) (core s) = (Ret resp, c) ->
    with_lm (snd (train_step train_X s)) = false.
Proof.
  intros train_X s q query resp c Hfields Hgen.
  rewrite (train_step_after_generation train_X s q query resp c Hfields Hgen).
  cbv zeta.
  destruct (score_all _) as [score_outputs|e]; [ | reflexivity ].
  destruct (calculate_rewards _ _) as [rw|e]; [ | reflexivity ].
  match goal with
  | |- context [step ?st] =>
      pose proof (step_consumes_flag st eq_refl) as H;
      destruct (step st) as [[[stats|]|e] s1]
  end.
  all: destruct H as (_ & _ & _ & Hlm).
  all: try destruct (lookup _ stats); cbn [snd]; rewrite Hlm; reflexivity.
Qed.

(** A [train_step] that returns has made exactly one update, and a
    [step] that follows it directly makes none. *)
Lemma train_step_then_step :
  forall (train_X : batch) (s s1 : @PPOTrainerTrl Core) r,
    train_step train_X s = (Ret r, s1) ->
    updates s1 = S (updates s) /\ step s1 = (Ret None, s1).
Proof.
  intros train_X s s1 r Hrun.
  destruct (fields train_X) as [[q query]|] eqn:Hfields.
  2: { destruct train_X; discriminate. }
  destruct (batch_generate true q (generation_kwargs s) (core s))
    as [[resp|e] c] eqn:Hgen.
  2: { rewrite (train_step_generation_raises _ _ _ _ _ _ Hfields Hgen)
         in Hrun. discriminate. }
  rewrite (train_step_after_generation _ _ _ _ _ _ Hfields Hgen) in Hrun.
  cbv zeta in Hrun.
  destruct (score_all _) as [score_outputs|e]; [ | discriminate ].
  destruct (calculate_rewards _ _) as [rw|e]; [ | discriminate ].
  match type of Hrun with
  | context [step ?st] =>
      pose proof (step_consumes_flag st eq_refl) as H;
      destruct (step st) as [[[stats|]|e] s2]
  end.
  all: try discriminate.
  destruct (lookup _ stats); inversion Hrun; subst.
  destruct H as (Hdown & _ & Hone & _).
  split; [ rewrite (Hone eq_refl); reflexivity | apply step_idle, Hdown ].
Qed.

End UpdateEngine.

Section DecodingMode.

Import ppo_spy.

Context {Core RewardInputs : Type} {ext : Collaborators Core RewardInputs}.

(** [step] makes no generation call. *)
Lemma step_generates_nothing :
  forall s : @PPOTrainerTrl (Core * list bool),
    generation_modes (snd (step (ext := spy ext) s)) = generation_modes s.
Proof.
  intros s. unfold step, bind, get, getattr, modify, on_core, ret, raise.
  destruct (ppo_step s) as [[|]|]; cbn; try reflexivity.
  destruct (question_tensors s) as [q|]; cbn; [ | reflexivity ].
  destruct (response_tensors s) as [r|]; cbn; [ | reflexivity ].
  destruct (rewards s) as [rw|]; cbn; [ | reflexivity ].
  unfold generation_modes. cbn.
  destruct (PPOTrainer_step q r rw (fst (core s))) as [[stats|e] c];
    reflexivity.
Qed.

Lemma step_unobserved :
  forall s : @PPOTrainerTrl (Core * list bool),
    step (ext := ext) (unobserved s)
    = (fst (step (ext := spy ext) s),
       unobserved (snd (step (ext := spy ext) s))).
Proof.
  intros s. unfold step, bind, get, getattr, modify, on_core, ret, raise.
  cbn.
  destruct (ppo_step s) as [[|]|]; cbn; try reflexivity.
  destruct (question_tensors s) as [q|]; cbn; [ | reflexivity ].
  destruct (response_tensors s) as [r|]; cbn; [ | reflexivity ].
  destruct (rewards s) as [rw|]; cbn; [ | reflexivity ].
  destruct (PPOTrainer_step q r rw (fst (core s))) as [[stats|e] c];
    reflexivity.
Qed.

(** Observing changes nothing: [train_step] with the observed
    collaborators does, apart from keeping the record, what it does with
    the collaborators themselves. *)
Lemma train_step_unobserved :
  forall (train_X : batch) (s : @PPOTrainerTrl (Core * list bool)),
    train_step (ext := ext) train_X (unobserved s)
    = (fst (train_step (ext := spy ext) train_X s),
       unobserved (snd (train_step (ext := spy ext) train_X s))).
Proof.
  intros train_X s.
  destruct (fields train_X) as [[q query]|] eqn:Hfields.
  2: { destruct train_X; try discriminate. reflexivity. }
  destruct (batch_generate (Collaborators := ext) true q
              (generation_kwargs s) (fst (core s)))
    as [[resp|e] c] eqn:Hgen.
  - assert (Hspy : batch_generate (Collaborators := spy ext) true q
                     (generation_kwargs s) (core s)
                   = (Ret resp, (c, snd (core s) ++ [true])))
      by (cbn; rewrite Hgen; reflexivity).
    rewrite (train_step_after_generation (ext := spy ext)
               _ _ _ _ _ _ Hfields Hspy).
    rewrite (train_step_after_generation (ext := ext) train_X (unobserved s)
               q query resp c Hfields Hgen).
    cbv zeta.
    change (score_all (ext := spy ext)
              (combine query
                 (map (tokenizer_decode (Collaborators := spy ext)) resp)))
      with (score_all (ext := ext)
              (combine query
                 (map (tokenizer_decode (Collaborators := ext)) resp))).
    destruct (score_all _) as [scores|e]; [ | reflexivity ].
    cbn [reward_baseline unobserved].
    destruct (calculate_rewards _ _) as [rw|e]; [ | reflexivity ].
    match goal with
    | |- context [step (ext := spy ext) ?st] =>
        pose proof (step_unobserved st) as H;
        change (unobserved st)
          with (set_ppo_step true
                  (stage q resp rw
                     (set_with_lm false
                        (set_core c (set_with_lm true (unobserved s))))))
          in H;
        rewrite H;
        destruct (step (ext := spy ext) st) as [[[stats|]|e] s2]
    end.
    all: cbn [fst snd]; try reflexivity.
    destruct (lookup _ stats); reflexivity.
  - assert (Hspy : batch_generate (Collaborators := spy ext) true q
                     (generation_kwargs s) (core s)
                   = (Raise e, (c, snd (core s) ++ [true])))
      by (cbn; rewrite Hgen; reflexivity).
    rewrite (train_step_generation_raises (ext := spy ext)
               _ _ _ _ _ _ Hfields Hspy).
    rewrite (train_step_generation_raises (ext := ext) train_X (unobserved s)
               q query e c Hfields Hgen).
    reflexivity.
Qed.

(** C9, as the code has it.  On a well-formed batch, and whatever the
    generation component and the other collaborators do, [train_step]
    makes exactly one [batch_generate] call, and that call is made with
    the decoding mode [with_lm] on, whatever the mode was before the
    step; and once that call has returned the mode is off at the end of
    the step, whatever the rest of the step does.  The calls are observed
    through collaborators that record the mode they are called with and
    otherwise leave the step as it is. *)
Theorem train_step_generates_with_lm_on_then_off :
  forall (train_X : batch) (s : @PPOTrainerTrl (Core * list bool)) q query,
    fields train_X = Some (q, query) ->
    let observed := train_step (ext := spy ext) train_X s in
    generation_modes (snd observed) = generation_modes s ++ [true]
    /\ (forall resp c,
          batch_generate true q (generation_kwargs s) (fst (core s))
          = (Ret resp, c) ->
          with_lm (snd observed) = false)
    /\ train_step (ext := ext) train_X (unobserved s)
       = (fst observed, unobserved (snd observed)).
Proof.
  intros train_X s q query Hfields. cbv zeta.
  split; [ | split; [ | apply train_step_unobserved ] ].
  - destruct (batch_generate (Collaborators := ext) true q
                (generation_kwargs s) (fst (core s)))
      as [[resp|e] c] eqn:Hgen.
    + assert (Hspy : batch_generate (Collaborators := spy ext) true q
                       (generation_kwargs s) (core s)
                     = (Ret resp, (c, snd (core s) ++ [true])))
        by (cbn; rewrite Hgen; reflexivity).
      rewrite (train_step_after_generation (ext := spy ext)
                 _ _ _ _ _ _ Hfields Hspy).
      cbv zeta.
      destruct (score_all _) as [scores|e]; [ | reflexivity ].
      destruct (calculate_rewards _ _) as [rw|e]; [ | reflexivity ].
      match goal with
      | |- context [step ?st] =>
          pose proof (step_generates_nothing st) as H;
          destruct (step st) as [[[stats|]|e] s2]
      end.
      all: cbn [snd] in H.
      all: try destruct (lookup _ stats); cbn [snd]; exact H.
    + assert (Hspy : batch_generate (Collaborators := spy ext) true q
                       (generation_kwargs s) (core s)
                     = (Raise e, (c, snd (core s) ++ [true])))
        by (cbn; rewrite Hgen; reflexivity).
      rewrite (train_step_generation_raises (ext := spy ext)
                 _ _ _ _ _ _ Hfields Hspy).
      reflexivity.
  - intros resp c Hgen.
    apply (train_step_leaves_with_lm_off (ext := spy ext) train_X s q query
             resp (c, snd (core s) ++ [true]) Hfields).
    cbn. rewrite Hgen. reflexivity.
Qed.

End DecodingMode.

End PPO.

(** Witnesses and counterexamples on the concrete collaborators. *)

Module DPOExamples.

Import dpo_trainer.

(** C6 fails on the code: a plain module, no reference model, no adapter
    configuration, every other argument at its default, and the
    constructor returns. *)
Lemma init_without_reference_returns :
  raised (__init__ (ext := Sample.collaborators) (ModelObj Sample.plain)
            None None None None None None None true false) = false.
Proof. reflexivity. Qed.

Lemma init_accepts_missing_reference_witness :
  is_PeftModel Sample.plain = false
  /\ exists t,
       __init__ (ext := Sample.collaborators) (ModelObj Sample.plain)
         None None None None None None None true false = Ret t
       /\ ref_model t = None
       /\ is_peft_model t = false.
Proof.
  split; [ reflexivity | ].
  apply (DPO.init_accepts_missing_reference (ext := Sample.collaborators)
           Sample.plain None None None true false).
  reflexivity.
Defined.

(** C2, on the code.  Named-reference-adapter mode, policy adapter
    [policy], reference adapter [ref]; the body of the scope raises.  The
    exception leaves the scope with the reference adapter still selected,
    where the exit rule prescribes [policy], the selection found on
    entry. *)
Theorem null_ref_context_raise_leaves_reference_adapter :
  let w0 := Sample.world_of Sample.policy_ref_trainer in
  active_adapter (model (self w0)) = "policy"
  /\ or_else (model_adapter_name (self w0)) "default" = "policy"
  /\ exists w1,
       null_ref_context Sample.out_of_memory w0
       = (Raise (RuntimeError "CUDA out of memory"), w1)
       /\ active_adapter (model (self w1)) = "ref".
Proof.
  cbv zeta. split; [ reflexivity | split; [ reflexivity | ] ].
  eexists. split; reflexivity.
Qed.

(** The same body in adapter-disable mode: the scope is left with the
    adapters enabled and the selection untouched. *)
Example null_ref_context_raise_in_disable_mode :
  let w0 := Sample.world_of Sample.disable_trainer in
  exists w1,
    null_ref_context Sample.out_of_memory w0
    = (Raise (RuntimeError "CUDA out of memory"), w1)
    /\ active_adapter (model (self w1)) = active_adapter (model (self w0))
    /\ adapters_enabled (model (self w1)) = true.
Proof. cbv zeta. eexists. repeat split. Qed.

(** C3 fails on the code: the policy's active adapter is [custom], no
    [model_adapter_name] is configured, and a scope whose body does
    nothing is left with [default] selected. *)
Lemma null_ref_context_forgets_entry_selection :
  let w0 := Sample.world_of Sample.named_ref_trainer in
  exists w1,
    null_ref_context (ret tt) w0 = (Ret tt, w1)
    /\ active_adapter (model (self w0)) = "custom"
    /\ active_adapter (model (self w1)) = "default"
    /\ active_adapter (model (self w1)) <> active_adapter (model (self w0)).
Proof.
  cbv zeta. eexists.
  split; [ reflexivity | split; [ reflexivity | split; [ reflexivity | ] ] ].
  discriminate.
Qed.

Lemma null_ref_context_exit_selection_witness :
  let w0 := Sample.world_of Sample.named_ref_trainer in
  let w1 := snd (null_ref_context (ret tt) w0) in
  preserves_self (ret tt : run (@World nat) unit)
  /\ null_ref_context (ret tt) w0 = (Ret tt, w1)
  /\ active_adapter (model (self w1)) = "default"
  /\ (active_adapter (model (self w1)) = active_adapter (model (self w0))
      <-> truthy (ref_adapter_name (self w0)) = false
          \/ active_adapter (model (self w0)) = "default").
Proof.
  cbv zeta.
  assert (Hbody : preserves_self (ret tt : run (@World nat) unit))
    by (intros w; reflexivity).
  split; [ exact Hbody | ]. split; [ reflexivity | ].
  exact (DPO.null_ref_context_exit_selection unit (ret tt)
           (Sample.world_of Sample.named_ref_trainer) _ tt Hbody eq_refl).
Defined.

(** Running [_forward] in adapter-disable mode on the input [5]. *)
Lemma forward_returns_float32_pair_witness :
  let w := Sample.world_of Sample.disable_trainer in
  let p := {| data := 12; dtype_of := float32;
              grad_leaves := ["lora_A.weight"] |} in
  let r := {| data := 6; dtype_of := float32; grad_leaves := [] |} in
  forward_output (ext := Sample.collaborators) (model (self w)) 5
    (grad_enabled w) = Ret p
  /\ forward_output (ext := Sample.collaborators)
       (reference_callee (self w)) 5 false = Ret r
  /\ _forward (ext := Sample.collaborators) 5 w
     = (Ret (p, r),
        {| grad_enabled := true;
           self := Sample.disable_trainer;
           trace := [ call_of Sample.lora 5 true;
                      call_of (set_adapters_enabled false Sample.lora) 5
                        false ] |}).
Proof.
  cbv zeta. split; [ reflexivity | split; [ reflexivity | ] ].
  refine (proj1 (DPO.forward_returns_float32_pair
                   (ext := Sample.collaborators) 5
                   (Sample.world_of Sample.disable_trainer) _ _
                   eq_refl eq_refl _)).
  intros _ H. discriminate H.
Defined.

Lemma init_without_reference_reuses_policy_witness :
  is_PeftModel Sample.plain = false
  /\ exists t,
       __init__ (ext := Sample.collaborators) (ModelObj Sample.plain)
         None None None None None None None true false = Ret t
       /\ ref_model t = None
       /\ null_ref_context (ret tt) (Sample.world_of t)
          = (Ret tt, Sample.world_of t)
       /\ exists p r w',
            _forward (ext := Sample.collaborators) 5 (Sample.world_of t)
            = (Ret (p, r), w')
            /\ data r = data p.
Proof.
  split; [ reflexivity | ].
  destruct (DPO.init_without_reference_reuses_policy
              (Inputs := nat) (ext := Sample.collaborators)
              Sample.plain None None true false eq_refl)
    as (t & Hinit & Href & Hscope & Hforward).
  exists t. split; [ exact Hinit | ]. split; [ exact Href | ]. split.
  - apply Hscope; [ reflexivity | intros w; reflexivity ].
  - specialize (Hforward 5 (Sample.world_of t) eq_refl).
    cbv zeta in Hforward. cbn [call_model Sample.collaborators] in Hforward.
    eexists; eexists; eexists. split; [ exact Hforward | reflexivity ].
Defined.

End DPOExamples.

Module PPOExamples.

Import ppo_trainer_trl.

(** The examples of the specification: the score tensor [2.5] with
    baseline [0.5], and the score tensor [1.0, 3.0] with the default
    baseline. *)
Example calculate_rewards_single_element :
  option_map (map normalise)
    (match calculate_rewards [ScoreTensor [2.5%Q]] (Some 0.5%Q) with
     | Ret rewards => Some rewards
     | Raise _ => None
     end)
  = Some [Num 2%Q].
Proof. reflexivity. Qed.

Example calculate_rewards_two_elements :
  option_map (map normalise)
    (match calculate_rewards [ScoreTensor [1.0%Q; 3.0%Q]] None with
     | Ret rewards => Some rewards
     | Raise _ => None
     end)
  = Some [Num 2%Q].
Proof. reflexivity. Qed.

(** A value that is not a tensor is not accepted. *)
Example calculate_rewards_not_a_tensor :
  raised (calculate_rewards [ScoreTensor [1%Q]; NotATensor] None) = true.
Proof. reflexivity. Qed.

Lemma step_updates_at_most_once_witness :
  ppo_step Sample.staged = Some true
  /\ let (o1, s1) := step (ext := Sample.ppo_collaborators) Sample.staged in
     let (o2, s2) := step (ext := Sample.ppo_collaborators) s1 in
     (updates s1 <= S (updates Sample.staged))%nat /\ o2 = Ret None /\ s2 = s1.
Proof.
  split; [ reflexivity | ].
  exact (PPO.step_updates_at_most_once (ext := Sample.ppo_collaborators)
           Sample.staged eq_refl).
Defined.

(** C9 fails on the code: the decoder is in language-model mode before
    the step, generation and the whole step succeed, and the mode is off
    afterwards. *)
Lemma train_step_does_not_restore_with_lm :
  let s0 := Sample.ppo_trainer true in
  let (o, s1) :=
    train_step (ext := Sample.ppo_collaborators) Sample.ppo_batch s0 in
  raised o = false /\ with_lm s0 = true /\ with_lm s1 = false.
Proof. cbv zeta. repeat split. Qed.

(** When generation raises, the mode stays on although it was off before
    the step. *)
Example train_step_generation_raises_with_lm_on :
  let s0 := Sample.ppo_trainer false in
  let (o, s1) :=
    train_step (ext := Sample.ppo_collaborators_failing_generation)
      Sample.ppo_batch s0 in
  raised o = true /\ with_lm s0 = false /\ with_lm s1 = true.
Proof. cbv zeta. repeat split. Qed.

Lemma train_step_leaves_with_lm_off_witness :
  let s0 := Sample.ppo_trainer true in
  fields Sample.ppo_batch
  = Some ([[1%Z; 2%Z]; [3%Z]], ["first prompt"; "second prompt"])
  /\ batch_generate (Collaborators := Sample.ppo_collaborators) true
       [[1%Z; 2%Z]; [3%Z]] (generation_kwargs s0) (core s0)
     = (Ret [[1%Z; 2%Z; 7%Z]; [3%Z; 7%Z]], 0%nat)
  /\ with_lm (snd (train_step (ext := Sample.ppo_collaborators)
                     Sample.ppo_batch s0)) = false.
Proof.
  cbv zeta. split; [ reflexivity | split; [ reflexivity | ] ].
  exact (PPO.train_step_leaves_with_lm_off
           (ext := Sample.ppo_collaborators) Sample.ppo_batch
           (Sample.ppo_trainer true) _ _ _ _ eq_refl eq_refl).
Defined.

(** The step on a decoder whose mode is off before it. *)
Lemma train_step_generates_with_lm_on_then_off_witness :
  let s := SampleMore.observed_ppo_trainer false in
  let observed :=
    train_step (ext := ppo_spy.spy Sample.ppo_collaborators)
      Sample.ppo_batch s in
  fields Sample.ppo_batch
  = Some ([[1%Z; 2%Z]; [3%Z]], ["first prompt"; "second prompt"])
  /\ with_lm s = false
  /\ ppo_spy.generation_modes (snd observed) = [true]
  /\ with_lm (snd observed) = false
  /\ train_step (ext := Sample.ppo_collaborators) Sample.ppo_batch
       (ppo_spy.unobserved s)
     = (fst observed, ppo_spy.unobserved (snd observed)).
Proof.
  cbv zeta.
  destruct (PPO.train_step_generates_with_lm_on_then_off
              (ext := Sample.ppo_collaborators) Sample.ppo_batch
              (SampleMore.observed_ppo_trainer false) _ _ eq_refl)
    as (Hmodes & Hoff & Hsame).
  split; [ reflexivity | split; [ reflexivity | ] ].
  split; [ exact Hmodes | ].
  split; [ exact (Hoff _ _ eq_refl) | exact Hsame ].
Defined.

End PPOExamples.


(* ===================================================================== *)
(** ** Further properties of the DPO trainer                              *)
(* ===================================================================== *)

Module DPOMore.

Import dpo_trainer.

(** One step of a chain of fallible statements that is known to return. *)
Ltac returned H :=
  match type of H with
  | obind ?c _ = Ret _ =>
      let E := fresh "E" in
      destruct c eqn:E; cbn [obind] in H; [ | discriminate H ]
  end.

Section Construction.

Context {Inputs Payload : Type} {ext : Collaborators Inputs Payload}.

(** X1.  Initialisation keywords for the reference model are refused with
    a [ValueError] unless the reference model is a checkpoint identifier:
    also when no reference model is given at all. *)
Theorem init_rejects_ref_kwargs_without_checkpoint :
  forall policy reference args model_init_kwargs kw policy_adapter
         reference_adapter peft_config disable_dropout force,
    is_str_opt reference = false ->
    (model_init_kwargs <> None -> is_str policy = true) ->
    __init__ policy reference args model_init_kwargs (Some kw)
      policy_adapter reference_adapter peft_config disable_dropout force
    = Raise (ValueError "You passed ref_model_kwargs to the DPOTrainer. But your ref_model is already instantiated.").
Proof.
  intros policy reference args mik kw pa ra cfg dd force Href Hpolicy.
  unfold __init__.
  destruct mik as [k|]; cbn [obind].
  - rewrite (Hpolicy ltac:(discriminate)). cbn [negb obind].
    rewrite Href. reflexivity.
  - rewrite Href. reflexivity.
Qed.

(** X2.  An adapter configuration on a machine without peft is refused
    with a [ValueError], for instantiated modules and whatever the
    reference model and the override flag are. *)
Theorem init_rejects_peft_config_without_peft :
  forall m (reference : option Model) args policy_adapter reference_adapter
         peft_config disable_dropout force,
    is_peft_available = false ->
    __init__ (ModelObj m) (option_map ModelObj reference) args None None
      policy_adapter reference_adapter (Some peft_config) disable_dropout
      force
    = Raise (ValueError "PEFT is not installed and you passed a `peft_config` in the trainer's kwargs, please install it to use the PEFT models").
Proof.
  intros m reference args pa ra cfg dd force Hpeft.
  unfold __init__. cbn [obind].
  destruct reference as [r|]; cbn [option_map obind]; rewrite Hpeft;
    reflexivity.
Qed.

Lemma trainable_frozen :
  forall ps : list Param, trainable (map freeze ps) = [].
Proof.
  induction ps as [|p ps IH]; [ reflexivity | exact IH ].
Qed.

(** What [__init__] stores as [self.ref_model] when it returns. *)
Lemma init_returns_ref_model :
  forall policy reference args model_init_kwargs ref_model_init_kwargs
         policy_adapter reference_adapter peft_config disable_dropout force t,
    __init__ policy reference args model_init_kwargs ref_model_init_kwargs
      policy_adapter reference_adapter peft_config disable_dropout force
    = Ret t ->
    exists given : option Model,
      (given = None <-> reference = None)
      /\ ref_model t
         = option_map
             (fun r =>
                let frozen :=
                  set_training false
                    (set_parameters (map freeze (parameters r)) r) in
                if disable_dropout
                then in_place disable_dropout_in_model frozen else frozen)
             given.
Proof.
  intros policy reference args mik rmik pa ra cfg dd force t H.
  unfold __init__ in H.
  returned H. returned H. returned H. returned H. returned H.
  destruct a3 as [m' casted]. inversion H; subst; clear H. cbn.
  exists a2. split.
  - destruct reference as [[path|r]|]; cbn in E2.
    + destruct (build_transformer_model path a0); inversion E2.
      split; discriminate.
    + inversion E2. split; discriminate.
    + inversion E2. split; reflexivity.
  - destruct a2 as [r|]; destruct dd; reflexivity.
Qed.

(** X3.  The reference model of a constructed trainer is frozen: none of
    its parameters requires a gradient, and it is in evaluation mode.  A
    trainer has a reference model exactly when one was given. *)
Theorem init_freezes_reference_model :
  forall policy reference args model_init_kwargs ref_model_init_kwargs
         policy_adapter reference_adapter peft_config disable_dropout force t,
    __init__ policy reference args model_init_kwargs ref_model_init_kwargs
      policy_adapter reference_adapter peft_config disable_dropout force
    = Ret t ->
    (ref_model t = None <-> reference = None)
    /\ forall r, ref_model t = Some r ->
         trainable (parameters r) = [] /\ training r = false.
Proof.
  intros policy reference args mik rmik pa ra cfg dd force t H.
  destruct (init_returns_ref_model _ _ _ _ _ _ _ _ _ _ _ H)
    as (given & Hgiven & Hstored).
  rewrite Hstored. split.
  - rewrite <- Hgiven. destruct given; cbn; split; congruence.
  - intros r Hr. destruct given as [r0|]; [ | discriminate ].
    cbn in Hr. inversion Hr; subst; clear Hr.
    destruct dd; cbn; split; try reflexivity; apply trainable_frozen.
Qed.

(** The policy once a pre-existing adapter has been merged away. *)
Definition merged (m : Model) : Model :=
  if is_PeftModel m then merge_and_unload m else m.


(** X5.  An adapter configuration for a policy loaded in 8 or 4 bits needs
    [args]: with [args] left at its default [None], construction stops
    with an [AttributeError] where the gradient-checkpointing setting is
    read, whenever the reference check lets it get there. *)
Theorem init_low_bit_policy_needs_args :
  forall m (reference : option Model) policy_adapter reference_adapter
         peft_config disable_dropout force,
    is_peft_available = true ->
    is_loaded_in_8bit (merged m) || is_loaded_in_4bit (merged m) = true ->
    (reference <> None -> force = true) ->
    __init__ (ModelObj m) (option_map ModelObj reference) None None None
      policy_adapter reference_adapter (Some peft_config) disable_dropout
      force
    = Raise (AttributeError "gradient_checkpointing").
Proof.
  intros m reference pa ra cfg dd force Hpeft Hbits Hforce.
  unfold __init__. cbn [obind].
  assert (Hcheck :
            match reference with Some _ => true | None => false end
            && negb force = false).
  { destruct reference as [r|]; [ | reflexivity ].
    rewrite (Hforce ltac:(discriminate)). reflexivity. }
  destruct reference as [r|]; cbn [option_map obind];
    rewrite Hpeft; cbn [negb]; unfold attach_adapter; fold (merged m);
    rewrite Hbits; cbn in Hcheck |- *; try rewrite Hcheck; reflexivity.
Qed.

End Construction.

Section Forward.

Context {Inputs Payload : Type} {ext : Collaborators Inputs Payload}.

(** [_forward], with the reference pass spelled out mode by mode. *)
Lemma forward_run :
  forall (x : Inputs) (w : @World Inputs),
    _forward x w
    = let t := self w in
      let g := grad_enabled w in
      let c1 := call_of (model t) x g in
      let c2 := call_of (reference_callee t) x false in
      let entered := set_grad_enabled false (log_call c1 w) in
      match forward_output (model t) x g with
      | Raise e => (Raise e, log_call c1 w)
      | Ret p =>
          let (o, w2) :=
            match ref_model t with
            | Some ref => (forward_output ref x false, log_call c2 entered)
            | None =>
                match ref_adapter_name t with
                | Some (String a s) =>
                    if is_PeftModel (model t) then
                      let w2 :=
                        log_call c2
                          (update_model (set_active_adapter (String a s))
                             entered) in
                      match forward_output (scoped_policy t) x false with
                      | Ret r =>
                          (Ret r,
                           update_model
                             (set_active_adapter
                                (or_else (model_adapter_name t) "default"))
                             w2)
                      | Raise e => (Raise e, w2)
                      end
                    else (Raise (AttributeError "set_adapter"), entered)
                | _ =>
                    if is_peft_model t then
                      (forward_output (scoped_policy t) x false,
                       update_model (set_adapters_enabled true)
                         (log_call c2
                            (update_model (set_adapters_enabled false)
                               entered)))
                    else (forward_output (model t) x false,
                          log_call c2 entered)
                end
            end in
          (match o with
           | Ret r => Ret (p, r)
           | Raise e => Raise e
           end, set_grad_enabled g w2)
      end.
Proof.
  intros x w. rewrite DPO.forward_unfold. cbv zeta.
  destruct (forward_output (model (self w)) x (grad_enabled w)) as [p|e];
    [ | reflexivity ].
  rewrite DPO.reference_block_run by reflexivity. reflexivity.
Qed.

Ltac by_modes w :=
  destruct (ref_model (self w)) as [ref|];
  [ | destruct (ref_adapter_name (self w)) as [[|a s]|];
      [ destruct (is_peft_model (self w))
      | destruct (is_PeftModel (model (self w)))
      | destruct (is_peft_model (self w)) ] ].

(** X6.  [_forward] leaves the gradient mode of torch as it found it, on
    every path: whether it returns, or the policy call, the reference
    call or the adapter switch raises. *)
Theorem forward_restores_grad_mode :
  forall (x : Inputs) (w : @World Inputs),
    grad_enabled (snd (_forward x w)) = grad_enabled w.
Proof.
  intros x w. rewrite forward_run. cbv zeta.
  destruct (forward_output (model (self w)) x (grad_enabled w)) as [p|e];
    [ | reflexivity ].
  by_modes w.
  all: try match goal with
         | |- context [forward_output ?m ?y false] =>
             destruct (forward_output m y false)
         end.
  all: reflexivity.
Qed.

(** X7.  When the policy call raises, [_forward] raises the same
    exception without invoking any reference: one call is logged, and the
    trainer and the gradient mode are untouched. *)
Theorem forward_policy_failure_skips_reference :
  forall (x : Inputs) (w : @World Inputs) e,
    call_model (model (self w)) x = Raise e ->
    _forward x w
    = (Raise e,
       {| grad_enabled := grad_enabled w; self := self w;
          trace := trace w
                   ++ [call_of (model (self w)) x (grad_enabled w)] |}).
Proof.
  intros x w e Hcall. rewrite forward_run. cbv zeta.
  unfold forward_output. rewrite Hcall. reflexivity.
Qed.

(** X8.  With a separate reference model, [_forward] never changes the
    trainer object: the policy module, its adapter state and the reference
    module are after the call what they were before, on every path. *)
Theorem forward_with_reference_model_keeps_trainer :
  forall (x : Inputs) (w : @World Inputs) ref,
    ref_model (self w) = Some ref ->
    self (snd (_forward x w)) = self w.
Proof.
  intros x w ref Href. rewrite forward_run. cbv zeta. rewrite Href.
  destruct (forward_output (model (self w)) x (grad_enabled w)) as [p|e];
    [ | reflexivity ].
  destruct (forward_output ref x false); reflexivity.
Qed.

Lemma set_adapters_enabled_same :
  forall m, adapters_enabled m = true -> set_adapters_enabled true m = m.
Proof. intros [] H. cbn in H. subst. reflexivity. Qed.

Lemma set_model_same : forall t, set_model (model t) t = t.
Proof. intros []. reflexivity. Qed.

(** X9.  In adapter-disable mode, with the adapters enabled on entry,
    [_forward] hands the trainer back exactly as it found it on every
    path, also when the reference call raises; and the reference call, if
    it is reached, is made on the policy with its adapters disabled. *)
Theorem forward_adapter_disable_mode_keeps_trainer :
  forall (x : Inputs) (w : @World Inputs),
    ref_model (self w) = None ->
    is_peft_model (self w) = true ->
    truthy (ref_adapter_name (self w)) = false ->
    adapters_enabled (model (self w)) = true ->
    let (o, w') := _forward x w in
    self w' = self w
    /\ forall p,
         forward_output (model (self w)) x (grad_enabled w) = Ret p ->
         trace w'
         = trace w
           ++ [ call_of (model (self w)) x (grad_enabled w);
                call_of (set_adapters_enabled false (model (self w))) x
                  false ].
Proof.
  intros x w Href Hpeft Hran Hon. rewrite forward_run. cbv zeta.
  rewrite Href, Hpeft.
  assert (Hcallee : reference_callee (self w)
                    = set_adapters_enabled false (model (self w))).
  { unfold reference_callee, scoped_policy. rewrite Href, Hpeft.
    destruct (ref_adapter_name (self w)) as [[|a s]|];
      [ reflexivity | discriminate | reflexivity ]. }
  rewrite Hcallee.
  assert (Hback : set_model
                    (set_adapters_enabled true
                       (set_adapters_enabled false (model (self w))))
                    (self w) = self w).
  { change (set_adapters_enabled true
              (set_adapters_enabled false (model (self w))))
      with (set_adapters_enabled true (model (self w))).
    rewrite (set_adapters_enabled_same _ Hon). apply set_model_same. }
  destruct (forward_output (model (self w)) x (grad_enabled w)) as [p|e].
  - destruct (ref_adapter_name (self w)) as [[|a s]|];
      [ | discriminate | ].
    all: destruct (forward_output
                     (set_adapters_enabled false (model (self w))) x false);
      cbn.
    all: split; [ exact Hback | ].
    all: intros p0 _; rewrite <- app_assoc; reflexivity.
  - split; [ reflexivity | ]. intros p0 Hp0. discriminate Hp0.
Qed.

(** The world a returning [_forward] leaves. *)
Lemma forward_returns_world :
  forall (x : Inputs) (w w1 : @World Inputs) pr,
    _forward x w = (Ret pr, w1) ->
    w1 = {| grad_enabled := grad_enabled w;
            self := after_reference_pass (self w);
            trace := trace w
                     ++ [ call_of (model (self w)) x (grad_enabled w);
                          call_of (reference_callee (self w)) x false ] |}.
Proof.
  intros x w w1 pr H. rewrite forward_run in H. cbv zeta in H.
  unfold after_reference_pass.
  destruct (forward_output (model (self w)) x (grad_enabled w)) as [p|e];
    [ | discriminate H ].
  by_modes w.
  all: try match type of H with
         | context [forward_output ?m ?y false] =>
             destruct (forward_output m y false)
         end.
  all: try discriminate H.
  all: inversion H; subst; clear H.
  all: unfold set_grad_enabled, log_call, update_model; cbn.
  all: rewrite <- app_assoc; reflexivity.
Qed.

Lemma reference_callee_after_pass :
  forall t, reference_callee (after_reference_pass t) = reference_callee t.
Proof.
  intros t. unfold reference_callee, after_reference_pass, scoped_policy.
  destruct (ref_model t) as [ref|] eqn:Href; [ rewrite Href; reflexivity | ].
  destruct (ref_adapter_name t) as [[|a s]|] eqn:Hran.
  2: cbn; rewrite Href, Hran; reflexivity.
  all: destruct (is_peft_model t) eqn:Hpeft; cbn;
    rewrite Href, Hran, Hpeft; reflexivity.
Qed.

(** X10.  The reference is the same from one step to the next: when two
    calls of [_forward] in a row return, four model invocations are
    logged, and the module state that produced the reference logits of the
    second call is the one that produced those of the first, both with
    gradient tracking off, in every reference mode. *)
Theorem forward_reference_is_stationary :
  forall (x x' : Inputs) (w w1 w2 : @World Inputs) pr pr',
    _forward x w = (Ret pr, w1) ->
    _forward x' w1 = (Ret pr', w2) ->
    exists c1 c2 c3 c4,
      trace w2 = trace w ++ [c1; c2; c3; c4]
      /\ callee c4 = callee c2
      /\ call_grad c2 = false
      /\ call_grad c4 = false.
Proof.
  intros x x' w w1 w2 pr pr' H1 H2.
  apply forward_returns_world in H1. apply forward_returns_world in H2.
  subst w1. cbn in H2. rewrite reference_callee_after_pass in H2.
  subst w2. cbn. rewrite <- app_assoc. cbn.
  do 4 eexists. split; [ reflexivity | ]. repeat split.
Qed.

End Forward.

Section Scope.

Context {Inputs Payload : Type} {ext : Collaborators Inputs Payload}.

(** The trainer object a normal exit of the null-reference scope leaves. *)
Definition left_scope (t : DPOTrainer) : DPOTrainer :=
  match ref_adapter_name t with
  | Some (String _ _) =>
      set_model (set_active_adapter
                   (or_else (model_adapter_name t) "default") (model t)) t
  | _ => if is_peft_model t
         then set_model (set_adapters_enabled true (model t)) t
         else t
  end.

Lemma scope_exit_trainer :
  forall A (body : run (@World Inputs) A) (w w1 : @World Inputs) (a : A),
    preserves_self body ->
    null_ref_context body w = (Ret a, w1) ->
    self w1 = left_scope (self w).
Proof.
  intros A body w w1 a Hbody Hrun. unfold left_scope.
  destruct (ref_adapter_name (self w)) as [[|c s]|] eqn:Hname.
  2: { destruct (is_PeftModel (model (self w))) eqn:Hpeft.
       - rewrite DPO.null_ref_context_named with (c := c) (s := s) in Hrun
           by assumption.
         pose proof (Hbody (update_model (set_active_adapter (String c s)) w))
           as H.
         destruct (body _) as [[a0|e] w2]; inversion Hrun; subst.
         cbn in H |- *. rewrite H. reflexivity.
       - rewrite DPO.null_ref_context_named_plain with (c := c) (s := s)
           in Hrun by assumption.
         discriminate. }
  all: assert (Hran : truthy (ref_adapter_name (self w)) = false)
         by (rewrite Hname; reflexivity).
  all: destruct (is_peft_model (self w)) eqn:Hpeft.
  all: try (rewrite DPO.null_ref_context_disable in Hrun by assumption;
            pose proof (Hbody (update_model (set_adapters_enabled false) w))
              as H;
            destruct (body _) as [o w2]; inversion Hrun; subst;
            cbn in H |- *; rewrite H; reflexivity).
  all: rewrite DPO.null_ref_context_noop in Hrun by assumption.
  all: pose proof (Hbody w) as H; rewrite Hrun in H; exact H.
Qed.

(** X11.  The null-reference scope is idempotent on the adapter state,
    though it is not the identity: once the scope has been left normally,
    passing through it again, with any body that leaves the trainer alone,
    changes neither the active adapter nor whether adapters are
    enabled. *)
Theorem null_ref_context_twice :
  forall A B (body : run (@World Inputs) A) (body' : run (@World Inputs) B)
         (w w1 w2 : @World Inputs) a b,
    preserves_self body ->
    preserves_self body' ->
    null_ref_context body w = (Ret a, w1) ->
    null_ref_context body' w1 = (Ret b, w2) ->
    self w2 = self w1.
Proof.
  intros A B body body' w w1 w2 a b Hbody Hbody' H1 H2.
  apply scope_exit_trainer in H1; [ | exact Hbody ].
  apply scope_exit_trainer in H2; [ | exact Hbody' ].
  rewrite H2, H1. unfold left_scope.
  destruct (self w) as [m r p man ran casted]. cbn.
  destruct ran as [[|c s]|]; cbn; [ | reflexivity | ].
  all: destruct p; cbn; reflexivity.
Qed.

(** X12.  In adapter-disable mode the scope is safe against exceptions:
    the body runs with the adapters disabled, and on every path out of
    it, return or exception, the adapters are enabled again, the active
    adapter is the one found on entry, and the outcome is the body's. *)
Theorem null_ref_context_disable_mode_cleans_up :
  forall A (body : run (@World Inputs) A) (w : @World Inputs),
    truthy (ref_adapter_name (self w)) = false ->
    is_peft_model (self w) = true ->
    preserves_self body ->
    let entered := update_model (set_adapters_enabled false) w in
    let (o, w') := null_ref_context body w in
    o = fst (body entered)
    /\ w' = update_model (set_adapters_enabled true) (snd (body entered))
    /\ adapters_enabled (model (self w')) = true
    /\ active_adapter (model (self w')) = active_adapter (model (self w)).
Proof.
  intros A body w Hran Hpeft Hbody. cbv zeta.
  rewrite DPO.null_ref_context_disable by assumption.
  pose proof (Hbody (update_model (set_adapters_enabled false) w)) as H.
  destruct (body _) as [o w2]. cbn in H |- *. rewrite H.
  repeat split.
Qed.

End Scope.

End DPOMore.

(* ===================================================================== *)
(** ** Further properties of the PPO trainer                              *)
(* ===================================================================== *)

Module PPOMore.

Import ppo_trainer_trl.

(** *** Reward shaping *)

Lemma calculate_rewards_loop_acc :
  forall scores b acc,
    calculate_rewards_loop scores b acc
    = try! r <- calculate_rewards_loop scores b [] ; Ret (acc ++ r).
Proof.
  induction scores as [|sc rest IH]; intros b acc.
  - cbn. rewrite app_nil_r. reflexivity.
  - destruct sc as [t|]; [ | reflexivity ].
    cbn [calculate_rewards_loop].
    destruct (Nat.eqb (numel t) 1).
    + destruct (item t) as [v|e]; [ | reflexivity ]. cbn [obind].
      rewrite (IH b (acc ++ _)), (IH b ([] ++ _)).
      destruct (calculate_rewards_loop rest b []); cbn [obind];
        [ rewrite <- app_assoc | ]; reflexivity.
    + rewrite (IH b (acc ++ _)), (IH b ([] ++ _)).
      destruct (calculate_rewards_loop rest b []); cbn [obind];
        [ rewrite <- app_assoc | ]; reflexivity.
Qed.

Lemma calculate_rewards_loop_app :
  forall a b bl acc,
    calculate_rewards_loop (a ++ b) bl acc
    = try! r <- calculate_rewards_loop a bl acc ;
      calculate_rewards_loop b bl r.
Proof.
  induction a as [|sc rest IH]; intros b bl acc; [ reflexivity | ].
  destruct sc as [t|]; [ | reflexivity ].
  cbn [app calculate_rewards_loop].
  destruct (Nat.eqb (numel t) 1).
  - destruct (item t) as [v|e]; [ | reflexivity ]. cbn [obind]. apply IH.
  - apply IH.
Qed.

(** X13.  [calculate_rewards] works sample by sample: the rewards of two
    batches put one after the other are the rewards of the first followed
    by those of the second, and the call raises when either part does,
    the first part's exception coming first. *)
Theorem calculate_rewards_app :
  forall (a b : list score) (reward_baseline : option Q),
    calculate_rewards (a ++ b) reward_baseline
    = try! ra <- calculate_rewards a reward_baseline ;
      try! rb <- calculate_rewards b reward_baseline ;
      Ret (ra ++ rb).
Proof.
  intros a b bl. unfold calculate_rewards.
  rewrite calculate_rewards_loop_app.
  destruct (calculate_rewards_loop a _ []) as [ra|e]; cbn [obind];
    [ | reflexivity ].
  apply calculate_rewards_loop_acc.
Qed.

(** On floating-point tensors and values that are no tensors, the loop
    over tensors of any element type is the loop of [ppo_trainer_trl]. *)
Lemma calculate_rewards_widen :
  forall (scores : list score) (reward_baseline : option Q),
    ppo_scores.calculate_rewards (map ppo_scores.widen scores) reward_baseline
    = calculate_rewards scores reward_baseline.
Proof.
  intros scores bl. unfold ppo_scores.calculate_rewards, calculate_rewards.
  generalize (@nil pyfloat) as acc.
  induction scores as [|sc rest IH]; intros acc; [ reflexivity | ].
  destruct sc as [t|]; [ | reflexivity ].
  cbn [map ppo_scores.widen ppo_scores.calculate_rewards_loop
       calculate_rewards_loop].
  destruct (Nat.eqb (numel t) 1).
  - destruct (item t) as [v|e]; [ | reflexivity ]. cbn [obind]. apply IH.
  - apply IH.
Qed.

Lemma calculate_rewards_loop_has_reward :
  forall (scores : list ppo_scores.any_score) (b : Q) (acc : list pyfloat),
    match ppo_scores.calculate_rewards_loop scores b acc with
    | Ret rewards =>
        forallb ppo_scores.has_reward scores = true
        /\ length rewards = length acc + length scores
    | Raise _ => forallb ppo_scores.has_reward scores = false
    end.
Proof.
  induction scores as [|sc rest IH]; intros b acc.
  - cbn. split; [ reflexivity | lia ].
  - destruct sc as [t|t|]; cbn [ppo_scores.calculate_rewards_loop forallb
                                ppo_scores.has_reward andb length];
      [ | | reflexivity ].
    + assert (Hnext :
                forall r,
                  match ppo_scores.calculate_rewards_loop rest b (acc ++ [r])
                  with
                  | Ret rewards =>
                      forallb ppo_scores.has_reward rest = true
                      /\ length rewards = length acc + S (length rest)
                  | Raise _ => forallb ppo_scores.has_reward rest = false
                  end).
      { intros r. specialize (IH b (acc ++ [r])).
        destruct (ppo_scores.calculate_rewards_loop rest b (acc ++ [r]));
          [ | exact IH ].
        destruct IH as [Hall Hlen]. split; [ exact Hall | ].
        rewrite Hlen, length_app. cbn. lia. }
      destruct t as [|x [|y t']]; cbn [numel length Nat.eqb item obind];
        apply Hnext.
    + destruct t as [|x [|y t']];
        cbn [length Nat.eqb ppo_scores.item_int obind]; try reflexivity.
      specialize (IH b (acc ++ [Num (inject_Z x - b)])).
      destruct (ppo_scores.calculate_rewards_loop rest b _); [ | exact IH ].
      destruct IH as [Hall Hlen]. split; [ exact Hall | ].
      rewrite Hlen, length_app. cbn. lia.
Qed.

(** X14.  [calculate_rewards] raises exactly when some element of its
    input is not a tensor, or is a tensor of integers or booleans that
    does not have exactly one element, for which [torch.mean] is not
    defined; otherwise it returns one reward per element.  For inputs made
    of floating-point tensors and values that are no tensors, that is
    exactly when some element is not a tensor. *)
Theorem calculate_rewards_raises_iff_no_reward :
  forall (scores : list ppo_scores.any_score) (reward_baseline : option Q),
    match ppo_scores.calculate_rewards scores reward_baseline with
    | Ret rewards =>
        forallb ppo_scores.has_reward scores = true
        /\ length rewards = length scores
    | Raise _ => forallb ppo_scores.has_reward scores = false
    end.
Proof.
  intros scores bl. unfold ppo_scores.calculate_rewards.
  exact (calculate_rewards_loop_has_reward scores _ []).
Qed.

(** X15.  The special case for one-element tensors changes nothing: for
    every score tensor that is not empty the reward is, as a number, the
    mean of the elements minus the baseline; an empty tensor gives
    not-a-number and no exception. *)
Theorem calculate_rewards_is_mean_minus_baseline :
  forall (t : list Q) (b : Q),
    exists reward,
      calculate_rewards [ScoreTensor t] (Some b) = Ret [reward]
      /\ match t with
         | [] => reward = NaN
         | _ :: _ =>
             exists q,
               reward = Num q
               /\ (q == total t / inject_Z (Z.of_nat (numel t)) - b)%Q
         end.
Proof.
  intros t b. unfold calculate_rewards. cbn.
  destruct t as [|x [|y t']]; cbn; eexists; split; try reflexivity.
  - exists (x - b)%Q. split; [ reflexivity | ].
    unfold total. cbn. field.
  - eexists. split; reflexivity.
Qed.

(** *** The update engine *)

Section UpdateEngine.

Context {Core RewardInputs : Type} {ext : Collaborators Core RewardInputs}.

Lemma score_all_tensors :
  forall pairs scores,
    score_all pairs = Ret scores ->
    exists tensors,
      scores = map ScoreTensor tensors /\ length tensors = length pairs.
Proof.
  induction pairs as [|[q r] rest IH]; intros scores H; cbn in H.
  - inversion H. exists []. split; reflexivity.
  - unfold get_reward_model_output in H.
    destruct (reward_model_logits (reward_tokenizer q r)) as [[|row rows]|e];
      cbn in H; try discriminate H.
    destruct (score_all rest) as [ss|e]; cbn in H; [ | discriminate H ].
    inversion H; subst; clear H.
    destruct (IH ss eq_refl) as (ts & -> & Hlen).
    exists (row :: ts). cbn. rewrite Hlen. split; reflexivity.
Qed.

(** X16.  Reward shaping cannot fail inside [train_step]: whatever the
    reward model returned, once every question and answer pair has been
    scored, [calculate_rewards] returns, with one reward per pair. *)
Theorem rewards_of_scored_pairs :
  forall (pairs : list (string * string)) scores (b : option Q),
    score_all pairs = Ret scores ->
    exists rewards,
      calculate_rewards scores b = Ret rewards
      /\ length rewards = length pairs.
Proof.
  intros pairs scores b H.
  destruct (score_all_tensors pairs scores H) as (ts & -> & Hlen).
  unfold calculate_rewards. rewrite PPO.calculate_rewards_loop_spec.
  eexists. split; [ reflexivity | ].
  cbn. rewrite length_map. exact Hlen.
Qed.

(** What a returning [train_step] has gone through. *)
Lemma train_step_returns_inv :
  forall (train_X : batch) (s s1 : @PPOTrainerTrl Core) loss stats,
    train_step train_X s = (Ret (loss, stats), s1) ->
    exists q query resp c scores rw,
      fields train_X = Some (q, query)
      /\ batch_generate true q (generation_kwargs s) (core s) = (Ret resp, c)
      /\ score_all (combine query (map tokenizer_decode resp)) = Ret scores
      /\ calculate_rewards scores (Some (reward_baseline s)) = Ret rw
      /\ step (set_ppo_step true
                 (stage q resp rw
                    (set_with_lm false (set_core c (set_with_lm true s)))))
         = (Ret (Some stats), s1)
      /\ lookup "ppo/loss/total" stats = Some loss.
Proof.
  intros train_X s s1 loss stats Hrun.
  destruct (fields train_X) as [[q query]|] eqn:Hfields.
  2: { destruct train_X; discriminate. }
  destruct (batch_generate true q (generation_kwargs s) (core s))
    as [[resp|e] c] eqn:Hgen.
  2: { rewrite (PPO.train_step_generation_raises _ _ _ _ _ _ Hfields Hgen)
         in Hrun. discriminate. }
  rewrite (PPO.train_step_after_generation _ _ _ _ _ _ Hfields Hgen) in Hrun.
  cbv zeta in Hrun.
  destruct (score_all _) as [scores|e] eqn:Hscore; [ | discriminate ].
  destruct (calculate_rewards _ _) as [rw|e] eqn:Hrw; [ | discriminate ].
  destruct (step _) as [[[stats'|]|e] s2] eqn:Hstep; try discriminate.
  destruct (lookup _ stats') as [loss'|] eqn:Hloss; inversion Hrun; subst.
  exists q, query, resp, c, scores, rw. repeat split; assumption.
Qed.

(** X17.  A [train_step] that returns has staged the prompts of the
    batch, the sequences generation produced for them and one reward per
    scored pair, as many as the shorter of the queries and the responses;
    it has handed exactly these to the update of trl, whose statistics it
    returns with their [ppo/loss/total] entry as the loss; the flag is
    down and the decoding mode off. *)
Theorem train_step_returns :
  forall (train_X : batch) (s s1 : @PPOTrainerTrl Core) loss stats,
    train_step train_X s = (Ret (loss, stats), s1) ->
    exists q query resp c rw,
      fields train_X = Some (q, query)
      /\ batch_generate true q (generation_kwargs s) (core s) = (Ret resp, c)
      /\ question_tensors s1 = Some q
      /\ response_tensors s1 = Some resp
      /\ rewards s1 = Some rw
      /\ length rw = Nat.min (length query) (length resp)
      /\ PPOTrainer_step q resp rw c = (Ret stats, core s1)
      /\ lookup "ppo/loss/total" stats = Some loss
      /\ ppo_step s1 = Some false
      /\ with_lm s1 = false
      /\ updates s1 = S (updates s).
Proof.
  intros train_X s s1 loss stats Hrun.
  destruct (train_step_returns_inv _ _ _ _ _ Hrun)
    as (q & query & resp & c & scores & rw
        & Hfields & Hgen & Hscore & Hrw & Hstep & Hloss).
  exists q, query, resp, c, rw.
  destruct (rewards_of_scored_pairs _ _ (Some (reward_baseline s)) Hscore)
    as (rw' & Hrw' & Hlen).
  rewrite Hrw in Hrw'. inversion Hrw'; subst rw'; clear Hrw'.
  rewrite length_combine, length_map in Hlen.
  unfold step, bind, get, getattr, modify, on_core, ret in Hstep.
  cbn in Hstep.
  destruct (PPOTrainer_step q resp rw c) as [[stats'|e] c'] eqn:Hupd;
    cbn in Hstep; inversion Hstep; subst; clear Hstep.
  cbn. repeat split; assumption.
Qed.

(** X18.  When the reward model fails on some pair, [train_step] raises
    its exception after generation and before anything is staged: no
    update is made, and the flag and the batch staged by an earlier step
    are as they were; the decoding mode is off and the trl state is the
    one generation left. *)
Theorem train_step_scoring_failure :
  forall (train_X : batch) (s : @PPOTrainerTrl Core) q query resp c e,
    fields train_X = Some (q, query) ->
    batch_generate true q (generation_kwargs s) (core s) = (Ret resp, c) ->
    score_all (combine query (map tokenizer_decode resp)) = Raise e ->
    let (o, s1) := train_step train_X s in
    o = Raise e
    /\ updates s1 = updates s
    /\ ppo_step s1 = ppo_step s
    /\ question_tensors s1 = question_tensors s
    /\ response_tensors s1 = response_tensors s
    /\ rewards s1 = rewards s
    /\ with_lm s1 = false
    /\ core s1 = c.
Proof.
  intros train_X s q query resp c e Hfields Hgen Hscore.
  rewrite (PPO.train_step_after_generation _ _ _ _ _ _ Hfields Hgen).
  cbv zeta. rewrite Hscore. repeat split.
Qed.

(** X19.  The loss is read after the update: when the statistics of trl
    have no [ppo/loss/total] entry, [train_step] raises a [KeyError], but
    the policy-gradient update has been made and counted, and the flag is
    down. *)
Theorem train_step_missing_loss_entry :
  forall (train_X : batch) (s : @PPOTrainerTrl Core)
         q query resp c scores rw stats c',
    fields train_X = Some (q, query) ->
    batch_generate true q (generation_kwargs s) (core s) = (Ret resp, c) ->
    score_all (combine query (map tokenizer_decode resp)) = Ret scores ->
    calculate_rewards scores (Some (reward_baseline s)) = Ret rw ->
    PPOTrainer_step q resp rw c = (Ret stats, c') ->
    lookup "ppo/loss/total" stats = None ->
    let (o, s1) := train_step train_X s in
    o = Raise (KeyError "ppo/loss/total")
    /\ updates s1 = S (updates s)
    /\ core s1 = c'
    /\ ppo_step s1 = Some false.
Proof.
  intros train_X s q query resp c scores rw stats c'
         Hfields Hgen Hscore Hrw Hupd Hloss.
  rewrite (PPO.train_step_after_generation _ _ _ _ _ _ Hfields Hgen).
  cbv zeta. rewrite Hscore, Hrw.
  unfold step, bind, get, getattr, modify, on_core, ret. cbn.
  rewrite Hupd. cbn. rewrite Hloss. repeat split.
Qed.

(** [step] never leaves the flag up. *)
Lemma step_lowers_flag :
  forall s : @PPOTrainerTrl Core,
    ppo_step (snd (step s)) <> Some true
    /\ (updates (snd (step s)) <= S (updates s))%nat.
Proof.
  intros s. destruct (ppo_step s) as [[|]|] eqn:Hflag.
  - pose proof (PPO.step_consumes_flag s Hflag) as H.
    destruct (step s) as [o s1]. cbn. destruct H as (Hdown & Hle & _).
    rewrite Hdown. split; [ discriminate | exact Hle ].
  - rewrite (PPO.step_idle s Hflag). cbn. rewrite Hflag.
    split; [ discriminate | lia ].
  - unfold step, bind, get, getattr, raise. rewrite Hflag. cbn.
    rewrite Hflag. split; [ discriminate | lia ].
Qed.

(** X20.  The flag is up only inside [train_step]: if it is not up before
    a [train_step], it is not up after it, however the step ends, and the
    step has made at most one update.  So a [step] called between two
    training steps never updates the policy. *)
Theorem train_step_never_leaves_flag_up :
  forall (train_X : batch) (s : @PPOTrainerTrl Core),
    ppo_step s <> Some true ->
    let s1 := snd (train_step train_X s) in
    ppo_step s1 <> Some true
    /\ (updates s1 <= S (updates s))%nat
    /\ updates (snd (step s1)) = updates s1.
Proof.
  intros train_X s Hflag. cbv zeta.
  assert (Hrest :
            forall s1 : @PPOTrainerTrl Core,
              ppo_step s1 <> Some true ->
              updates (snd (step s1)) = updates s1).
  { intros s1 H1. destruct (ppo_step s1) as [[|]|] eqn:E.
    - contradiction H1; reflexivity.
    - rewrite (PPO.step_idle s1 E). reflexivity.
    - unfold step, bind, get, getattr, raise. rewrite E. reflexivity. }
  assert (Hmain : ppo_step (snd (train_step train_X s)) <> Some true
                  /\ (updates (snd (train_step train_X s))
                      <= S (updates s))%nat).
  { destruct (fields train_X) as [[q query]|] eqn:Hfields.
    2: { destruct train_X; try discriminate. cbn. split; [ exact Hflag | lia ]. }
    destruct (batch_generate true q (generation_kwargs s) (core s))
      as [[resp|e] c] eqn:Hgen.
    2: { rewrite (PPO.train_step_generation_raises _ _ _ _ _ _ Hfields Hgen).
         cbn. split; [ exact Hflag | lia ]. }
    rewrite (PPO.train_step_after_generation _ _ _ _ _ _ Hfields Hgen).
    cbv zeta.
    destruct (score_all _) as [scores|e]; [ | cbn; split; [ exact Hflag | lia ] ].
    destruct (calculate_rewards _ _) as [rw|e];
      [ | cbn; split; [ exact Hflag | lia ] ].
    match goal with
    | |- context [step ?st] =>
        pose proof (step_lowers_flag st) as H;
        destruct (step st) as [[[stats|]|e] s2]
    end.
    all: cbn in H.
    all: try destruct (lookup _ stats); cbn; exact H. }
  destruct Hmain as [Hdown Hle].
  split; [ exact Hdown | ]. split; [ exact Hle | ].
  apply Hrest, Hdown.
Qed.

End UpdateEngine.

(** *** The constructor *)

Section Constructor.

Import ppo_constructor.

Context {Core RewardInputs : Type} {ext : Collaborators Core RewardInputs}.
Context {TrlArgs : Type}.
Variable PPOTrainer_init : TrlArgs -> option Q -> outcome (Core * nat).

(** X21.  The constructor cannot be used with its default
    [generation=None]: it always raises then.  With trl installed and
    trl's own constructor returning, the exception is the
    [AttributeError] of setting [process_choice] on [None]. *)
Theorem init_needs_generation :
  forall trl_installed (args : TrlArgs) generation_kwargs reward_baseline,
    raised (__init__ TrlArgs PPOTrainer_init trl_installed args None
              generation_kwargs reward_baseline) = true
    /\ (trl_installed = true ->
        raised (PPOTrainer_init args reward_baseline) = false ->
        __init__ TrlArgs PPOTrainer_init trl_installed args None
          generation_kwargs reward_baseline
        = Raise (AttributeError "'NoneType' object has no attribute 'process_choice'")).
Proof.
  intros trl args gk rb. unfold __init__.
  destruct trl; cbn [negb]; [ | split; [ reflexivity | discriminate ] ].
  destruct (PPOTrainer_init args rb) as [[c steps]|e]; cbn.
  - split; reflexivity.
  - split; [ reflexivity | intros _ H; discriminate H ].
Qed.

(** X22.  The flag of the update engine does not exist until the first
    [train_step]: on a trainer as the constructor returns it, [step]
    raises an [AttributeError] and changes nothing. *)
Theorem step_before_first_train_step :
  forall trl_installed (args : TrlArgs) generation generation_kwargs
         reward_baseline c,
    __init__ TrlArgs PPOTrainer_init trl_installed args generation
      generation_kwargs reward_baseline = Ret c ->
    step (state c) = (Raise (AttributeError "ppo_step"), state c)
    /\ updates (state c) = 0.
Proof.
  intros trl args generation gk rb c H. unfold __init__ in H.
  destruct trl; cbn [negb] in H; [ | discriminate H ].
  destruct (PPOTrainer_init args rb) as [[trl_state steps]|e]; cbn in H;
    [ | discriminate H ].
  destruct generation as [g|]; [ | discriminate H ].
  inversion H; subst; clear H. split; reflexivity.
Qed.

End Constructor.

End PPOMore.

(* ===================================================================== *)
(** ** Properties of the data preparation of the example scripts          *)
(* ===================================================================== *)

Module DataFacts.

Lemma string_app_assoc :
  forall a b c : string, ((a ++ b) ++ c)%string = (a ++ (b ++ c))%string.
Proof.
  induction a as [|ch a IH]; intros b c; cbn; [ | rewrite IH ]; reflexivity.
Qed.

Lemma skipn_exact :
  forall (A : Type) (l r : list A) n, length l = n -> skipn n (l ++ r) = r.
Proof.
  intros A l r n <-. rewrite skipn_app, skipn_all, Nat.sub_diag. reflexivity.
Qed.

Section RLHF.

Import step3_rlhf.

Variable tokenizer : string -> list Z.
Variable sequence_padding : list (list Z) -> Z -> list (list Z).
Variable tokenizer_pad_token_id : option Z.

(** The example made from one message. *)
Let example_of (m : message) : string * list Z :=
  (source_of m, tokenizer (source_of m)).

Lemma messages_loop_spec :
  forall conversation new_examples,
    messages_loop tokenizer conversation new_examples
    = new_examples ++ map example_of conversation.
Proof.
  induction conversation as [|m rest IH]; intros acc; cbn [messages_loop map].
  - rewrite app_nil_r. reflexivity.
  - rewrite IH, <- app_assoc. unfold example_of, source_of.
    destruct (from m); reflexivity.
Qed.

Lemma conversations_loop_spec :
  forall examples new_examples,
    conversations_loop tokenizer examples new_examples
    = new_examples ++ flat_map (map example_of) examples.
Proof.
  induction examples as [|c rest IH]; intros acc;
    cbn [conversations_loop flat_map].
  - rewrite app_nil_r. reflexivity.
  - rewrite IH, messages_loop_spec, <- app_assoc. reflexivity.
Qed.

Lemma preprocess_function_spec :
  forall examples : list (list message),
    preprocess_function tokenizer examples
    = flat_map (map example_of) examples.
Proof.
  intros examples. unfold preprocess_function.
  rewrite conversations_loop_spec. reflexivity.
Qed.

(** X23.  [preprocess_function] makes one example per message, in the
    order of the conversations and of their messages: the prompt built
    from the message, whose instruction is the [value] followed, on a new
    line, by the [from] entry unless that is empty, and the tokens of
    that very prompt. *)
Theorem preprocess_function_one_example_per_message :
  forall examples : list (list message),
    preprocess_function tokenizer examples
    = flat_map (map (fun m => (source_of m, tokenizer (source_of m))))
        examples
    /\ length (preprocess_function tokenizer examples)
       = list_sum (map (@length message) examples).
Proof.
  intros examples. rewrite preprocess_function_spec.
  split; [ reflexivity | ].
  induction examples as [|c rest IH]; [ reflexivity | ].
  cbn [flat_map map list_sum]. rewrite length_app, length_map, IH.
  reflexivity.
Qed.

Lemma collate_loop_spec :
  forall batch ids queries,
    collate_loop batch ids queries
    = (ids ++ map snd batch, queries ++ map fst batch).
Proof.
  induction batch as [|[q t] rest IH]; intros ids queries;
    cbn [collate_loop map].
  - rewrite !app_nil_r. reflexivity.
  - rewrite IH, <- !app_assoc. reflexivity.
Qed.

(** X24.  A batch collated from preprocessed data is always in the
    mapping form that [train_step] reads: its queries are the prompts of
    the samples in batch order, and the rows handed to the padding are the
    tokenizations of those same prompts, row by row. *)
Theorem collate_fn_aligns_queries_and_tokens :
  forall (examples : list (list message)) (batch : list (string * list Z)),
    incl batch (preprocess_function tokenizer examples) ->
    let queries := map fst batch in
    collate_fn sequence_padding tokenizer_pad_token_id batch
    = ppo_trainer_trl.Mapping
        (sequence_padding (map tokenizer queries)
           (pad_token_id tokenizer_pad_token_id))
        queries
    /\ ppo_trainer_trl.fields
         (collate_fn sequence_padding tokenizer_pad_token_id batch)
       = Some (sequence_padding (map tokenizer queries)
                 (pad_token_id tokenizer_pad_token_id),
               queries).
Proof.
  intros examples batch Hincl. cbv zeta.
  assert (Htok : map snd batch = map tokenizer (map fst batch)).
  { rewrite map_map. apply map_ext_in. intros [q t] Hin.
    apply Hincl in Hin.
    rewrite preprocess_function_spec in Hin.
    apply in_flat_map in Hin. destruct Hin as (c & _ & Hin).
    apply in_map_iff in Hin. destruct Hin as (m & Heq & _).
    inversion Heq; subst. reflexivity. }
  unfold collate_fn. rewrite collate_loop_spec. cbn [app].
  rewrite Htok. split; reflexivity.
Qed.

End RLHF.

Section ChatGLM.

Import task_chatglm2_ptuning_v2.

Lemma history_loop_app :
  forall h h' i prompt,
    history_loop i (h ++ h') prompt
    = history_loop (i + length h) h' (history_loop i h prompt).
Proof.
  induction h as [|[oq r] rest IH]; intros h' i prompt; cbn [app history_loop length].
  - rewrite Nat.add_0_r. reflexivity.
  - rewrite IH. f_equal. lia.
Qed.

(** X25.  Prompts grow by prefix: the prompt for a query after a history
    that ends with the round [(old_query, response)] is the prompt that
    was built for [old_query] after the earlier history, followed by the
    response, a blank line, and the new round, numbered one more than the
    rounds before it.  With no history the prompt is round 1 alone. *)
Theorem build_prompt_extends_previous_prompt :
  forall (query old_query response : string)
         (history : list (string * string)),
    build_prompt query (Some (history ++ [(old_query, response)]))
    = (build_prompt old_query (Some history)
       ++ response ++ newline ++ newline
       ++ open_round (length history + 2) query)%string
    /\ build_prompt query None = open_round 1 query
    /\ build_prompt query (Some []) = open_round 1 query.
Proof.
  intros query old_query response history.
  split; [ | split; reflexivity ].
  unfold build_prompt. rewrite history_loop_app. cbn [history_loop].
  rewrite length_app. cbn [length].
  replace (length history + 1 + 1) with (length history + 2) by lia.
  rewrite Nat.add_0_l.
  unfold past_round, open_round.
  rewrite !string_app_assoc. reflexivity.
Qed.

Variable encode : string -> bool -> nat -> list Z.
Variables eos_token_id pad_token_id : Z.

(** The sample made from one item of the batch. *)
Let sample_of (item : string * string * option (list (string * string)))
    : list Z * list Z :=
  let '(query, answer, history) := item in
  let a_ids := encode (prefix ++ build_prompt query history)%string true
                 max_source_length in
  let b_ids := encode answer false max_target_length in
  (a_ids ++ b_ids ++ [eos_token_id],
   repeat pad_token_id (length a_ids) ++ b_ids ++ [eos_token_id]).

Lemma collate_train_loop_spec :
  forall batch ids labels,
    collate_train_loop encode eos_token_id pad_token_id batch ids labels
    = (ids ++ map (fun item => fst (sample_of item)) batch,
       labels ++ map (fun item => snd (sample_of item)) batch).
Proof.
  induction batch as [|[[q a] h] rest IH]; intros ids labels;
    cbn [collate_train_loop map].
  - rewrite !app_nil_r. reflexivity.
  - rewrite IH, <- !app_assoc. reflexivity.
Qed.

(** X26.  The labels of [collate_train_fn] line up with the inputs: there
    is one input row and one label row per sample, in the order of the
    batch.  The input row of a sample starts with the ids of its encoded
    prompt, [context_length] of them, and goes on with the ids of the
    encoded answer and the end-of-sequence id.  The label row is as long
    as the input row, holds the padding id over exactly these
    [context_length] positions, and from there on is the input row
    itself. *)
Theorem collate_train_labels_mask_the_prompt :
  forall batch : list (string * string * option (list (string * string))),
    let (batch_token_ids, batch_labels) :=
      collate_train_samples encode eos_token_id pad_token_id batch in
    length batch_token_ids = length batch
    /\ length batch_labels = length batch
    /\ Forall2
         (fun item row =>
            let '(query, answer, history) := item in
            let '(input_ids, labels) := row in
            let a_ids :=
              encode (prefix ++ build_prompt query history)%string true
                max_source_length in
            let b_ids := encode answer false max_target_length in
            let context_length := length a_ids in
            firstn context_length input_ids = a_ids
            /\ skipn context_length input_ids = b_ids ++ [eos_token_id]
            /\ length labels = length input_ids
            /\ context_length < length input_ids
            /\ firstn context_length labels
               = repeat pad_token_id context_length
            /\ skipn context_length labels
               = skipn context_length input_ids
            /\ last input_ids pad_token_id = eos_token_id)
         batch (combine batch_token_ids batch_labels).
Proof.
  intros batch. unfold collate_train_samples.
  rewrite collate_train_loop_spec. cbn [app].
  split; [ apply length_map | ]. split; [ apply length_map | ].
  induction batch as [|[[q a] h] rest IH]; cbn [map combine]; constructor;
    [ | exact IH ].
  cbn [sample_of fst snd].
  set (a_ids := encode _ true max_source_length).
  set (b_ids := encode a false max_target_length).
  repeat split.
  - rewrite firstn_app, Nat.sub_diag. cbn [firstn].
    rewrite app_nil_r. apply firstn_all.
  - apply skipn_exact. reflexivity.
  - rewrite !length_app, repeat_length. reflexivity.
  - rewrite !length_app. cbn. lia.
  - rewrite firstn_app, repeat_length, Nat.sub_diag. cbn [firstn].
    rewrite app_nil_r. apply firstn_all2. rewrite repeat_length. lia.
  - rewrite (skipn_exact _ (repeat pad_token_id (length a_ids)))
      by apply repeat_length.
    rewrite (skipn_exact _ a_ids) by reflexivity. reflexivity.
  - rewrite app_assoc. apply last_last.
Qed.

(** X27.  Truncation bounds the prompt and the answer separately, and the
    end-of-sequence id is added afterwards: when the tokenizer honours
    [max_length], an input row has at most [max_seq_length + 1] ids. *)
Theorem collate_train_rows_are_bounded :
  forall batch : list (string * string * option (list (string * string))),
    (forall text special n, length (encode text special n) <= n) ->
    Forall (fun input_ids => length input_ids <= max_seq_length + 1)
      (fst (collate_train_samples encode eos_token_id pad_token_id batch)).
Proof.
  intros batch Htrunc. unfold collate_train_samples.
  rewrite collate_train_loop_spec. cbn [app fst].
  induction batch as [|[[q a] h] rest IH]; cbn [map]; constructor;
    [ | exact IH ].
  cbn [sample_of fst]. rewrite !length_app. cbn [length].
  pose proof (Htrunc (prefix ++ build_prompt q h)%string true
                max_source_length).
  pose proof (Htrunc a false max_target_length).
  unfold max_seq_length. lia.
Qed.

End ChatGLM.

Section ShiftedLoss.

Import task_chatglm2_ptuning_v2.

Variables Logit Loss : Type.
Variable cross_entropy : list Logit -> list Z -> Loss.

Lemma nth_error_combine_inv :
  forall (A B : Type) (l1 : list A) (l2 : list B) j a b,
    nth_error (combine l1 l2) j = Some (a, b) ->
    nth_error l1 j = Some a /\ nth_error l2 j = Some b.
Proof.
  induction l1 as [|x l1 IH]; intros l2 j a b H; [ destruct j; discriminate | ].
  destruct l2 as [|y l2]; [ destruct j; discriminate | ].
  destruct j as [|j]; cbn in H |- *.
  - inversion H. split; reflexivity.
  - apply IH, H.
Qed.

Lemma nth_error_removelast :
  forall (A : Type) (l : list A) j a,
    nth_error (removelast l) j = Some a -> nth_error l j = Some a.
Proof.
  induction l as [|x l IH]; intros j a H; [ destruct j; discriminate | ].
  destruct l as [|y l]; [ destruct j; discriminate | ].
  destruct j as [|j]; [ exact H | ].
  apply (IH j a), H.
Qed.

Lemma combine_app_same :
  forall (A B : Type) (l1 l1' : list A) (l2 l2' : list B),
    length l1 = length l2 ->
    combine (l1 ++ l1') (l2 ++ l2') = combine l1 l2 ++ combine l1' l2'.
Proof.
  induction l1 as [|x l1 IH]; intros l1' l2 l2' H;
    destruct l2 as [|y l2]; try discriminate; [ reflexivity | ].
  cbn. rewrite IH by (cbn in H; lia). reflexivity.
Qed.

Lemma shifted_row_lengths :
  forall (l : list Logit) (y : list Z),
    length l = length y -> length (removelast l) = length (tl y).
Proof.
  intros l y H. rewrite removelast_firstn_len, length_firstn.
  destruct y as [|b y]; cbn in *; lia.
Qed.

(** X28.  The loss scores each position against the next token of the
    same sequence.  For logits and labels with rows of matching length,
    the flattened logits and labels that reach the parent loss have the
    same length, and whenever the logits [a] and the label [b] stand at
    the same place in them, [a] is at some position [j] of some row [i] of
    the logits and [b] at position [j + 1] of row [i] of the labels. *)
Theorem forward_scores_next_token :
  forall (logits : list (list Logit)) (labels : list (list Z)),
    Forall2 (fun l y => length l = length y) logits labels ->
    forward Logit Loss cross_entropy logits labels
    = cross_entropy (shift_logits Logit logits) (shift_labels labels)
    /\ length (shift_logits Logit logits) = length (shift_labels labels)
    /\ forall k a b,
         nth_error (combine (shift_logits Logit logits)
                      (shift_labels labels)) k = Some (a, b) ->
         exists i j l y,
           nth_error logits i = Some l
           /\ nth_error labels i = Some y
           /\ nth_error l j = Some a
           /\ nth_error y (S j) = Some b.
Proof.
  intros logits labels Hrows. split; [ reflexivity | ].
  unfold shift_logits, shift_labels.
  induction Hrows as [|l y logits labels Hrow Hrows IH]; cbn [map concat].
  - split; [ reflexivity | ]. intros k a b H. destruct k; discriminate.
  - destruct IH as [IHlen IHnth].
    pose proof (shifted_row_lengths l y Hrow) as Hshift.
    split; [ rewrite !length_app, IHlen, Hshift; reflexivity | ].
    intros k a b H. rewrite combine_app_same in H by exact Hshift.
    destruct (Nat.ltb_spec k (length (combine (removelast l) (tl y))))
      as [Hk|Hk].
    + rewrite nth_error_app1 in H by exact Hk.
      apply nth_error_combine_inv in H. destruct H as [Ha Hb].
      exists 0, k, l, y. repeat split.
      * apply nth_error_removelast, Ha.
      * rewrite nth_error_S. exact Hb.
    + rewrite nth_error_app2 in H by exact Hk.
      destruct (IHnth _ a b H) as (i & j & l' & y' & Hl & Hy & Ha & Hb).
      exists (S i), j, l', y'. repeat split; assumption.
Qed.

End ShiftedLoss.

Section Compare.

Import compare.

Variable Value : Type.
Variable value_eqb : Value -> Value -> bool.

Lemma get_pop :
  forall (k k' : string) (d : config Value),
    get Value k' (pop Value k d)
    = if String.eqb k k' then None else get Value k' d.
Proof.
  intros k k' d. unfold pop.
  induction d as [|[k0 v] d IH]; cbn [filter get fst].
  - destruct (String.eqb k k'); reflexivity.
  - destruct (String.eqb k k0) eqn:Hk0; cbn [negb get].
    + rewrite IH. apply String.eqb_eq in Hk0. subst k0.
      destruct (String.eqb k k') eqn:Hk'; [ reflexivity | ].
      rewrite String.eqb_sym, Hk'. reflexivity.
    + rewrite IH.
      destruct (String.eqb k' k0) eqn:Hk'0; [ | reflexivity ].
      apply String.eqb_eq in Hk'0. subst k0. rewrite Hk0. reflexivity.
Qed.

Lemma get_none_not_in :
  forall (k : string) (d : config Value),
    ~ In k (keys Value d) -> get Value k d = None.
Proof.
  intros k d. induction d as [|[k0 v] d IH]; intros Hnot; [ reflexivity | ].
  cbn in *. destruct (String.eqb_spec k k0) as [->|Hk].
  - contradiction Hnot. left; reflexivity.
  - apply IH. intros Hin. apply Hnot. right; exact Hin.
Qed.

Lemma empty_iff_no_key :
  forall d : config Value, d = [] <-> forall k, get Value k d = None.
Proof.
  intros d. split; [ intros ->; reflexivity | ].
  destruct d as [|[k v] d]; [ reflexivity | ].
  intros H. specialize (H k). cbn in H. rewrite String.eqb_refl in H.
  discriminate.
Qed.

(** X29.  The comparison of two configurations prints nothing exactly
    when they have the same keys with equal values: a key of the local
    file that is missing or differs on the other side is reported at the
    first such key, and keys found only on the other side are reported
    together at the end. *)
Theorem compare_items_silent_iff_same_content :
  forall local_config convert_config : config Value,
    NoDup (keys Value local_config) ->
    (compare_items Value value_eqb local_config convert_config
     = Silent Value
     <-> same_content Value value_eqb local_config convert_config).
Proof.
  induction local_config as [|[k v] rest IH]; intros convert Hnodup.
  - cbn [compare_items]. unfold same_content. cbn [get]. split.
    + destruct convert; [ | discriminate ]. intros _ k. exact I.
    + intros H. assert (Hempty : convert = []).
      { apply empty_iff_no_key. intros k. specialize (H k).
        destruct (get Value k convert); [ contradiction | reflexivity ]. }
      rewrite Hempty. reflexivity.
  - inversion Hnodup as [|k0 ks Hnotin Hrest]; subst.
    cbn [compare_items].
    destruct (get Value k convert) as [v'|] eqn:Hget.
    2: { split; [ discriminate | ]. intros H. specialize (H k).
         cbn in H. rewrite String.eqb_refl, Hget in H. contradiction. }
    destruct (value_eqb v v') eqn:Heq; cbn [negb].
    2: { split; [ discriminate | ]. intros H. specialize (H k).
         cbn in H. rewrite String.eqb_refl, Hget in H. congruence. }
    rewrite (IH (pop Value k convert) Hrest).
    unfold same_content. split; intros H k'; specialize (H k').
    + rewrite get_pop in H. cbn [get].
      destruct (String.eqb_spec k' k) as [->|Hk'].
      * rewrite Hget. exact Heq.
      * destruct (String.eqb_spec k k'); [ congruence | exact H ].
    + rewrite get_pop. cbn [get] in H.
      destruct (String.eqb_spec k k') as [<-|Hk'].
      * rewrite (get_none_not_in k rest Hnotin). exact I.
      * destruct (String.eqb_spec k' k); [ congruence | exact H ].
Qed.

Variable read : string -> option (config Value).
Variable join : string -> string -> string.
Variable replace : string -> string -> string -> string.

Lemma files_loop_without_config :
  forall local_dir convert_dir dir files out,
    ~ In "bert4torch_config.json" files ->
    files_loop Value value_eqb read join replace local_dir convert_dir dir
      files out
    = (out, None).
Proof.
  intros local_dir convert_dir dir files out.
  induction files as [|f files IH]; intros Hnot; cbn [files_loop];
    [ reflexivity | ].
  destruct (String.eqb_spec f "bert4torch_config.json") as [->|Hf].
  - contradiction Hnot. left; reflexivity.
  - cbn [negb]. apply IH. intros Hin. apply Hnot. right; exact Hin.
Qed.

Lemma walk_loop_without_config :
  forall local_dir convert_dir earlier rest out,
    Forall (fun entry : string * list string =>
              ~ In "bert4torch_config.json" (snd entry)) earlier ->
    walk_loop Value value_eqb read join replace local_dir convert_dir
      (earlier ++ rest) out
    = walk_loop Value value_eqb read join replace local_dir convert_dir
        rest out.
Proof.
  intros local_dir convert_dir earlier rest out Hearlier.
  induction Hearlier as [|[dir files] earlier Hfiles _ IH];
    cbn [app walk_loop]; [ reflexivity | ].
  rewrite (files_loop_without_config _ _ _ _ _ Hfiles). exact IH.
Qed.

(** X30.  A missing counterpart is warned about and then stops the whole
    run: when the first configuration file met on the walk, in whichever
    directory it lies, the directories walked before it holding no such
    file, has no file at the converted path, [main] prints the warning
    for that path and ends with a [FileNotFoundError] on it, without
    looking at any later file or directory. *)
Theorem main_stops_at_missing_counterpart :
  forall local_dir convert_dir earlier dir before after later local_config,
    Forall (fun entry : string * list string =>
              ~ In "bert4torch_config.json" (snd entry)) earlier ->
    ~ In "bert4torch_config.json" before ->
    let local_path := join dir "bert4torch_config.json" in
    let convert_path := replace local_path local_dir convert_dir in
    read local_path = Some local_config ->
    read convert_path = None ->
    main Value value_eqb read join replace local_dir convert_dir
      (earlier
       ++ (dir, before ++ "bert4torch_config.json" :: after) :: later)
    = ([Warning Value convert_path],
       Some (FileNotFoundError convert_path)).
Proof.
  intros local_dir convert_dir earlier dir before after later local_config
         Hearlier Hbefore local_path convert_path Hlocal Hconvert.
  unfold main. rewrite (walk_loop_without_config _ _ _ _ _ Hearlier).
  cbn [walk_loop].
  assert (Hfiles :
            forall out,
              files_loop Value value_eqb read join replace local_dir
                convert_dir dir
                (before ++ "bert4torch_config.json" :: after) out
              = (out ++ [Warning Value convert_path],
                 Some (FileNotFoundError convert_path))).
  { induction before as [|f before IH]; intros out.
    - cbn [app files_loop]. rewrite String.eqb_refl. cbn [negb].
      fold local_path. fold convert_path. rewrite Hconvert, Hlocal.
      reflexivity.
    - cbn [app files_loop].
      destruct (String.eqb_spec f "bert4torch_config.json") as [->|Hf].
      + contradiction Hbefore. left; reflexivity.
      + cbn [negb]. apply IH. intros Hin. apply Hbefore. right; exact Hin. }
  rewrite Hfiles. reflexivity.
Qed.

End Compare.

End DataFacts.


(* ===================================================================== *)
(** ** The further properties on concrete inputs                          *)
(* ===================================================================== *)

Module MoreExamples.

Import dpo_trainer.

Lemma init_rejects_ref_kwargs_without_checkpoint_witness :
  is_str_opt None = false
  /\ ((None : option kwargs) <> None -> is_str (ModelObj Sample.plain) = true)
  /\ __init__ (ext := Sample.collaborators) (ModelObj Sample.plain) None None
       None (Some []) None None None true false
     = Raise (ValueError "You passed ref_model_kwargs to the DPOTrainer. But your ref_model is already instantiated.").
Proof.
  assert (H : (None : option kwargs) <> None
              -> is_str (ModelObj Sample.plain) = true)
    by (intros H; contradiction H; reflexivity).
  split; [ reflexivity | split; [ exact H | ] ].
  exact (DPOMore.init_rejects_ref_kwargs_without_checkpoint
           (ext := Sample.collaborators) (ModelObj Sample.plain) None None
           None [] None None None true false eq_refl H).
Defined.

Lemma init_rejects_peft_config_without_peft_witness :
  is_peft_available (Collaborators := SampleMore.collaborators_without_peft)
  = false
  /\ __init__ (ext := SampleMore.collaborators_without_peft)
       (ModelObj Sample.plain) None None None None None None
       (Some [("r", "8")]) true false
     = Raise (ValueError "PEFT is not installed and you passed a `peft_config` in the trainer's kwargs, please install it to use the PEFT models").
Proof.
  split; [ reflexivity | ].
  exact (DPOMore.init_rejects_peft_config_without_peft
           (ext := SampleMore.collaborators_without_peft) Sample.plain None
           None None None [("r", "8")] true false eq_refl).
Defined.

Lemma init_freezes_reference_model_witness :
  __init__ (ext := Sample.collaborators) (ModelObj Sample.plain)
    (Some (ModelObj SampleMore.reference)) None None None None None None
    true false = Ret SampleMore.ref_trainer
  /\ (ref_model SampleMore.ref_trainer = None
      <-> Some (ModelObj SampleMore.reference) = None)
  /\ forall r, ref_model SampleMore.ref_trainer = Some r ->
       trainable (parameters r) = [] /\ training r = false.
Proof.
  split; [ reflexivity | ].
  exact (DPOMore.init_freezes_reference_model
           (ext := Sample.collaborators) (ModelObj Sample.plain)
           (Some (ModelObj SampleMore.reference)) None None None None None
           None true false SampleMore.ref_trainer eq_refl).
Defined.


Lemma init_low_bit_policy_needs_args_witness :
  is_loaded_in_8bit SampleMore.quantized = true
  /\ __init__ (ext := Sample.collaborators) (ModelObj SampleMore.quantized)
       None None None None None None (Some [("r", "8")]) true false
     = Raise (AttributeError "gradient_checkpointing").
Proof.
  split; [ reflexivity | ].
  refine (DPOMore.init_low_bit_policy_needs_args
            (ext := Sample.collaborators) SampleMore.quantized None None None
            [("r", "8")] true false eq_refl eq_refl _).
  intros H. contradiction H. reflexivity.
Defined.

Lemma forward_policy_failure_skips_reference_witness :
  let w := Sample.world_of SampleMore.ref_trainer in
  call_model (Collaborators := SampleMore.collaborators_failing_forward)
    (model (self w)) 0 = Raise (RuntimeError "CUDA out of memory")
  /\ _forward (ext := SampleMore.collaborators_failing_forward) 0 w
     = (Raise (RuntimeError "CUDA out of memory"),
        {| grad_enabled := true; self := SampleMore.ref_trainer;
           trace := [call_of Sample.plain 0 true] |}).
Proof.
  cbv zeta. split; [ reflexivity | ].
  exact (DPOMore.forward_policy_failure_skips_reference
           (ext := SampleMore.collaborators_failing_forward) 0
           (Sample.world_of SampleMore.ref_trainer) _ eq_refl).
Defined.

Lemma forward_with_reference_model_keeps_trainer_witness :
  let w := Sample.world_of SampleMore.ref_trainer in
  ref_model (self w) <> None
  /\ self (snd (_forward (ext := Sample.collaborators) 5 w))
     = SampleMore.ref_trainer.
Proof.
  cbv zeta. split; [ discriminate | ].
  exact (DPOMore.forward_with_reference_model_keeps_trainer
           (ext := Sample.collaborators) 5
           (Sample.world_of SampleMore.ref_trainer) _ eq_refl).
Defined.

(** Adapter-disable mode, with a reference call that raises. *)
Lemma forward_adapter_disable_mode_keeps_trainer_witness :
  let w := Sample.world_of Sample.disable_trainer in
  let (o, w') :=
    _forward (ext := SampleMore.collaborators_failing_forward) 5 w in
  raised o = true
  /\ self w' = Sample.disable_trainer
  /\ forall p,
       forward_output (ext := SampleMore.collaborators_failing_forward)
         Sample.lora 5 true = Ret p ->
       trace w'
       = [ call_of Sample.lora 5 true;
           call_of (set_adapters_enabled false Sample.lora) 5 false ].
Proof.
  cbv zeta.
  pose proof (DPOMore.forward_adapter_disable_mode_keeps_trainer
                (ext := SampleMore.collaborators_failing_forward) 5
                (Sample.world_of Sample.disable_trainer)
                eq_refl eq_refl eq_refl eq_refl) as H.
  destruct (_forward 5 (Sample.world_of Sample.disable_trainer))
    as [o w'] eqn:E.
  split; [ inversion E; reflexivity | exact H ].
Defined.

Lemma forward_reference_is_stationary_witness :
  let w := Sample.world_of Sample.named_ref_trainer in
  let first := _forward (ext := Sample.collaborators) 5 w in
  let second := _forward (ext := Sample.collaborators) 6 (snd first) in
  raised (fst first) = false
  /\ raised (fst second) = false
  /\ exists c1 c2 c3 c4,
       trace (snd second) = [c1; c2; c3; c4]
       /\ callee c4 = callee c2
       /\ call_grad c2 = false
       /\ call_grad c4 = false.
Proof.
  cbv zeta. split; [ reflexivity | split; [ reflexivity | ] ].
  exact (DPOMore.forward_reference_is_stationary
           (ext := Sample.collaborators) 5 6
           (Sample.world_of Sample.named_ref_trainer) _ _ _ _
           eq_refl eq_refl).
Defined.

Lemma null_ref_context_twice_witness :
  let w := Sample.world_of Sample.named_ref_trainer in
  let w1 := snd (null_ref_context (ret tt) w) in
  let w2 := snd (null_ref_context (ret tt) w1) in
  self w1 <> self w /\ self w2 = self w1.
Proof.
  cbv zeta. split; [ discriminate | ].
  assert (Hbody : preserves_self (ret tt : run (@World nat) unit))
    by (intros w; reflexivity).
  exact (DPOMore.null_ref_context_twice unit unit (ret tt) (ret tt)
           (Sample.world_of Sample.named_ref_trainer) _ _ tt tt
           Hbody Hbody eq_refl eq_refl).
Defined.

Lemma null_ref_context_disable_mode_cleans_up_witness :
  let w := Sample.world_of Sample.disable_trainer in
  let (o, w') := null_ref_context Sample.out_of_memory w in
  o = Raise (RuntimeError "CUDA out of memory")
  /\ adapters_enabled (model (self w')) = true
  /\ active_adapter (model (self w')) = "custom".
Proof.
  cbv zeta.
  assert (Hbody : preserves_self Sample.out_of_memory)
    by (intros w; reflexivity).
  pose proof (DPOMore.null_ref_context_disable_mode_cleans_up unit
                Sample.out_of_memory
                (Sample.world_of Sample.disable_trainer)
                eq_refl eq_refl Hbody) as H.
  cbv zeta in H.
  destruct (null_ref_context Sample.out_of_memory
              (Sample.world_of Sample.disable_trainer)) as [o w'].
  destruct H as (Ho & _ & Hon & Hactive).
  split; [ exact Ho | split; [ exact Hon | exact Hactive ] ].
Defined.

Section PPOWitnesses.

Import ppo_trainer_trl.

Lemma rewards_of_scored_pairs_witness :
  score_all (ext := Sample.ppo_collaborators)
    [("first prompt", "an answer"); ("second prompt", "an answer")]
  = Ret [ScoreTensor [(3 # 2)%Q]; ScoreTensor [(3 # 2)%Q]]
  /\ exists rewards,
       calculate_rewards [ScoreTensor [(3 # 2)%Q]; ScoreTensor [(3 # 2)%Q]]
         (Some (1 # 2)%Q) = Ret rewards
       /\ length rewards = 2.
Proof.
  split; [ reflexivity | ].
  exact (PPOMore.rewards_of_scored_pairs (ext := Sample.ppo_collaborators)
           [("first prompt", "an answer"); ("second prompt", "an answer")]
           _ (Some (1 # 2)%Q) eq_refl).
Defined.

Lemma train_step_returns_witness :
  let s := Sample.ppo_trainer true in
  let result :=
    train_step (ext := Sample.ppo_collaborators) Sample.ppo_batch s in
  fst result = Ret ((1 # 4)%Q, [("ppo/loss/total", (1 # 4)%Q)])
  /\ exists q query resp c rw,
       fields Sample.ppo_batch = Some (q, query)
       /\ batch_generate (Collaborators := Sample.ppo_collaborators) true q
            (generation_kwargs s) (core s) = (Ret resp, c)
       /\ question_tensors (snd result) = Some q
       /\ response_tensors (snd result) = Some resp
       /\ rewards (snd result) = Some rw
       /\ length rw = Nat.min (length query) (length resp)
       /\ PPOTrainer_step (Collaborators := Sample.ppo_collaborators)
            q resp rw c
          = (Ret [("ppo/loss/total", (1 # 4)%Q)], core (snd result))
       /\ lookup "ppo/loss/total" [("ppo/loss/total", (1 # 4)%Q)]
          = Some (1 # 4)%Q
       /\ ppo_step (snd result) = Some false
       /\ with_lm (snd result) = false
       /\ updates (snd result) = S (updates s).
Proof.
  cbv zeta. split; [ reflexivity | ].
  exact (PPOMore.train_step_returns (ext := Sample.ppo_collaborators)
           Sample.ppo_batch (Sample.ppo_trainer true) _ _ _ eq_refl).
Defined.

Lemma train_step_scoring_failure_witness :
  let s := Sample.staged in
  let (o, s1) :=
    train_step (ext := SampleMore.ppo_collaborators_failing_reward)
      Sample.ppo_batch s in
  o = Raise (RuntimeError "CUDA out of memory")
  /\ updates s1 = updates s
  /\ ppo_step s1 = Some true
  /\ rewards s1 = rewards s
  /\ with_lm s1 = false
  /\ core s1 = 1.
Proof.
  cbv zeta.
  pose proof (PPOMore.train_step_scoring_failure
                (ext := SampleMore.ppo_collaborators_failing_reward)
                Sample.ppo_batch Sample.staged _ _ _ _ _
                eq_refl eq_refl eq_refl) as H.
  destruct (train_step Sample.ppo_batch Sample.staged) as [o s1].
  destruct H as (Ho & Hu & Hflag & _ & _ & Hrw & Hlm & Hcore).
  repeat split; assumption.
Defined.

Lemma train_step_missing_loss_entry_witness :
  let s := Sample.ppo_trainer false in
  let (o, s1) :=
    train_step (ext := SampleMore.ppo_collaborators_without_loss)
      Sample.ppo_batch s in
  o = Raise (KeyError "ppo/loss/total")
  /\ updates s1 = 1
  /\ core s1 = 1
  /\ ppo_step s1 = Some false.
Proof.
  cbv zeta.
  exact (PPOMore.train_step_missing_loss_entry
           (ext := SampleMore.ppo_collaborators_without_loss)
           Sample.ppo_batch (Sample.ppo_trainer false) _ _ _ _ _ _ _ _
           eq_refl eq_refl eq_refl eq_refl eq_refl eq_refl).
Defined.

Lemma train_step_never_leaves_flag_up_witness :
  let s := Sample.ppo_trainer false in
  let s1 :=
    snd (train_step (ext := Sample.ppo_collaborators) Sample.ppo_batch s) in
  ppo_step s <> Some true
  /\ ppo_step s1 <> Some true
  /\ (updates s1 <= S (updates s))%nat
  /\ updates (snd (step (ext := Sample.ppo_collaborators) s1)) = updates s1.
Proof.
  cbv zeta.
  assert (H : ppo_step (Sample.ppo_trainer false) <> Some true)
    by discriminate.
  split; [ exact H | ].
  exact (PPOMore.train_step_never_leaves_flag_up
           (ext := Sample.ppo_collaborators) Sample.ppo_batch
           (Sample.ppo_trainer false) H).
Defined.

Lemma step_before_first_train_step_witness :
  let generation :=
    {| ppo_constructor.decoder_with_lm := false;
       ppo_constructor.process_choice := Some "tokenize" |} in
  exists c,
    ppo_constructor.__init__ unit SampleMore.trl_init true tt
      (Some generation) None None = Ret c
    /\ step (ext := Sample.ppo_collaborators) (ppo_constructor.state c)
       = (Raise (AttributeError "ppo_step"), ppo_constructor.state c)
    /\ updates (ppo_constructor.state c) = 0.
Proof.
  cbv zeta. eexists. split; [ reflexivity | ].
  exact (PPOMore.step_before_first_train_step
           (ext := Sample.ppo_collaborators) SampleMore.trl_init true tt
           (Some {| ppo_constructor.decoder_with_lm := false;
                    ppo_constructor.process_choice := Some "tokenize" |})
           None None _ eq_refl).
Defined.

End PPOWitnesses.

Lemma collate_fn_aligns_queries_and_tokens_witness :
  let batch :=
    step3_rlhf.preprocess_function SampleMore.toy_tokenizer
      SampleMore.conversations in
  incl batch
    (step3_rlhf.preprocess_function SampleMore.toy_tokenizer
       SampleMore.conversations)
  /\ length batch = 2
  /\ ppo_trainer_trl.fields
       (step3_rlhf.collate_fn SampleMore.toy_padding (Some 0%Z) batch)
     = Some (map SampleMore.toy_tokenizer (map fst batch), map fst batch).
Proof.
  cbv zeta. split; [ apply incl_refl | split; [ reflexivity | ] ].
  exact (proj2 (DataFacts.collate_fn_aligns_queries_and_tokens
                  SampleMore.toy_tokenizer SampleMore.toy_padding (Some 0%Z)
                  SampleMore.conversations _ (incl_refl _))).
Defined.

Lemma collate_train_rows_are_bounded_witness :
  (forall text special n,
      length (SampleMore.toy_encode text special n) <= n)
  /\ Forall
       (fun input_ids =>
          length input_ids <= task_chatglm2_ptuning_v2.max_seq_length + 1)
       (fst (task_chatglm2_ptuning_v2.collate_train_samples
               SampleMore.toy_encode 2%Z 0%Z
               [("A dress", "A summer dress", None)])).
Proof.
  assert (H : forall text special n,
             length (SampleMore.toy_encode text special n) <= n)
    by (intros text special n; apply firstn_le_length).
  split; [ exact H | ].
  exact (DataFacts.collate_train_rows_are_bounded SampleMore.toy_encode
           2%Z 0%Z [("A dress", "A summer dress", None)] H).
Defined.

Lemma forward_scores_next_token_witness :
  let logits := [[10; 11; 12]; [20; 21; 22]] in
  let labels := [[1%Z; 2%Z; 3%Z]; [4%Z; 5%Z; 6%Z]] in
  Forall2 (fun (l : list nat) (y : list Z) => length l = length y)
    logits labels
  /\ task_chatglm2_ptuning_v2.shift_logits nat logits = [10; 11; 20; 21]
  /\ task_chatglm2_ptuning_v2.shift_labels labels
     = [2%Z; 3%Z; 5%Z; 6%Z]
  /\ length (task_chatglm2_ptuning_v2.shift_logits nat logits)
     = length (task_chatglm2_ptuning_v2.shift_labels labels).
Proof.
  cbv zeta.
  assert (H : Forall2 (fun (l : list nat) (y : list Z) => length l = length y)
                [[10; 11; 12]; [20; 21; 22]]
                [[1%Z; 2%Z; 3%Z]; [4%Z; 5%Z; 6%Z]])
    by (repeat constructor).
  split; [ exact H | split; [ reflexivity | split; [ reflexivity | ] ] ].
  exact (proj1 (proj2 (DataFacts.forward_scores_next_token nat
                         (list nat * list Z)
                         (fun l y => (l, y)) _ _ H))).
Defined.

Lemma compare_items_silent_iff_same_content_witness :
  let local_config := [("hidden_size", 768); ("num_layers", 12)] in
  let convert_config := [("num_layers", 12); ("hidden_size", 768)] in
  NoDup (compare.keys nat local_config)
  /\ compare.compare_items nat Nat.eqb local_config convert_config
     = compare.Silent nat
  /\ compare.same_content nat Nat.eqb local_config convert_config.
Proof.
  cbv zeta.
  assert (H : NoDup (compare.keys nat
                       [("hidden_size", 768); ("num_layers", 12)])).
  { repeat constructor; cbn; intuition discriminate. }
  split; [ exact H | split; [ reflexivity | ] ].
  exact (proj1 (DataFacts.compare_items_silent_iff_same_content nat Nat.eqb
                  [("hidden_size", 768); ("num_layers", 12)]
                  [("num_layers", 12); ("hidden_size", 768)] H)
           eq_refl).
Defined.

Lemma main_stops_at_missing_counterpart_witness :
  Forall (fun entry : string * list string =>
            ~ In "bert4torch_config.json" (snd entry))
    [ ("local", ["README.md"]); ("local/assets", []) ]
  /\ ~ In "bert4torch_config.json" ["README.md"]
  /\ compare.main nat Nat.eqb SampleMore.toy_read SampleMore.toy_join
       SampleMore.toy_replace "local" "convert"
       [ ("local", ["README.md"]);
         ("local/assets", []);
         ("local/bert", ["README.md"; "bert4torch_config.json"; "vocab.txt"]);
         ("local/gpt", ["bert4torch_config.json"]) ]
     = ([compare.Warning nat "convert/local/bert/bert4torch_config.json"],
        Some (compare.FileNotFoundError
                "convert/local/bert/bert4torch_config.json")).
Proof.
  assert (H : ~ In "bert4torch_config.json" ["README.md"])
    by (cbn; intuition discriminate).
  assert (Hearlier :
            Forall (fun entry : string * list string =>
                      ~ In "bert4torch_config.json" (snd entry))
              [ ("local", ["README.md"]); ("local/assets", []) ])
    by (repeat constructor; cbn; intuition discriminate).
  split; [ exact Hearlier | split; [ exact H | ] ].
  exact (DataFacts.main_stops_at_missing_counterpart nat Nat.eqb
           SampleMore.toy_read SampleMore.toy_join SampleMore.toy_replace
           "local" "convert"
           [ ("local", ["README.md"]); ("local/assets", []) ]
           "local/bert" ["README.md"] ["vocab.txt"]
           [("local/gpt", ["bert4torch_config.json"])]
           [("hidden_size", 768); ("num_layers", 12)]
           Hearlier H eq_refl eq_refl).
Defined.

End MoreExamples.
